(** * Mini Pokedex resource server and agent client: a shallow embedding

    The development follows the two programs of the repository:

    - [mcp-crash-course-project-resources/main.py], the resource server with
      the three handlers [list_starters], [get_pokemon] and
      [get_pokemon_by_type];
    - [mcp-crash-course-project-langchain-mcp-adapters/main.py], the agent
      client, whose start-up sequence is modelled in [Module Client].

    Modelling conventions.

    - The value returned by [response.json()] is a [json] tree.  A Python
      [dict] is an association list (Python dicts keep insertion order) in
      which a lookup finds the first binding of the key.
    - A Python [str] is a [string]; the case mapping of [str.capitalize] is
      modelled on the ASCII letters, other characters are left as they are.
    - A Python [float] is modelled by the rational number it stands for;
      rounding to binary64 is not modelled, and a statement about the
      sign of a quotient is made for every rounding of it.  The one
      exception a true division of an [int] can raise, [OverflowError],
      is modelled.
    - Python exceptions are the constructors of [exn]; a function that can
      raise returns a [result]. *)

From Stdlib Require Import ZArith QArith List String Ascii Bool Lia DecimalString.
From Stdlib Require DecimalPos DecimalZ.
Import ListNotations.
Local Open Scope string_scope.
Local Open Scope Z_scope.
Set Warnings "-register-all".

(** ** Python values *)

Inductive json : Type :=
| JNull
| JBool (b : bool)
| JInt (z : Z)
| JFloat (q : Q)
| JStr (s : string)
| JList (l : list json)
| JObj (kv : list (string * json)).

(** The exception classes that the handlers raise, catch or let through.
    [KeyError] carries the text of [str(e)], which is the [repr] of the
    missing key.  [OtherError cls] stands for an exception of any class
    [cls] that derives from none of the classes above it, such as
    [RecursionError] or [httpx.InvalidURL]. *)
Inductive exn : Type :=
| ResourceError (msg : string)
| RequestError (msg : string)
| KeyError (shown : string)
| ValueError (msg : string)
| TypeError
| AttributeError
| OverflowError
| OtherError (cls : string).

Inductive result (A : Type) : Type :=
| Ok (a : A)
| Raise (e : exn).
Arguments Ok {A} a.
Arguments Raise {A} e.

Definition bind {A B : Type} (m : result A) (k : A -> result B) : result B :=
  match m with
  | Ok a => k a
  | Raise e => Raise e
  end.

Notation "x <- m ;; k" := (bind m (fun x => k))
  (at level 61, m at next level, right associativity).

(** [try: m except h]: an exception of [m] for which [h] has a clause is
    replaced by the exception that clause raises; any other exception
    propagates unchanged. *)
Definition try_except {A : Type} (m : result A) (h : exn -> option exn) : result A :=
  match m with
  | Ok a => Ok a
  | Raise e => match h e with
               | Some e' => Raise e'
               | None => Raise e
               end
  end.

Fixpoint mapM {A B : Type} (f : A -> result B) (l : list A) : result (list B) :=
  match l with
  | [] => Ok []
  | a :: l' => b <- f a ;; bs <- mapM f l' ;; Ok (b :: bs)
  end.

(** ** Python primitives used by the handlers *)

(** [f"{n}"] for an [int]. *)
Definition show_int (z : Z) : string := NilZero.string_of_int (Z.to_int z).

(** [repr(k)] for the key literals of the handlers (none of them holds a
    quote or a character that [repr] escapes). *)
Definition repr_key (k : string) : string := "'" ++ k ++ "'".

Fixpoint assoc (k : string) (kv : list (string * json)) : option json :=
  match kv with
  | [] => None
  | (k', v) :: kv' => if String.eqb k k' then Some v else assoc k kv'
  end.

(** [d[k]] for a [str] key [k]. *)
Definition getitem (d : json) (k : string) : result json :=
  match d with
  | JObj kv => match assoc k kv with
               | Some v => Ok v
               | None => Raise (KeyError (repr_key k))
               end
  | _ => Raise TypeError
  end.

(** [d[k1][k2]]. *)
Definition getitem2 (d : json) (k1 k2 : string) : result json :=
  v <- getitem d k1 ;; getitem v k2.

Definition is_lower (c : ascii) : bool :=
  let n := nat_of_ascii c in (Nat.leb 97 n && Nat.leb n 122)%bool.

Definition is_upper (c : ascii) : bool :=
  let n := nat_of_ascii c in (Nat.leb 65 n && Nat.leb n 90)%bool.

Definition to_upper (c : ascii) : ascii :=
  if is_lower c then ascii_of_nat (nat_of_ascii c - 32) else c.

Definition to_lower (c : ascii) : ascii :=
  if is_upper c then ascii_of_nat (nat_of_ascii c + 32) else c.

Fixpoint lower (s : string) : string :=
  match s with
  | EmptyString => EmptyString
  | String c s' => String (to_lower c) (lower s')
  end.

(** [str.capitalize]: the first character upper-cased, every other
    character lower-cased. *)
Definition capitalize (s : string) : string :=
  match s with
  | EmptyString => EmptyString
  | String c s' => String (to_upper c) (lower s')
  end.

(** [v.capitalize()]: only a [str] has the method. *)
Definition capitalize_method (v : json) : result string :=
  match v with
  | JStr s => Ok (capitalize s)
  | _ => Raise AttributeError
  end.

(** An [int] whose tenth rounds beyond the largest binary64 number. *)
Definition float_overflow (z : Z) : bool :=
  10 * (2 ^ 1024 - 2 ^ 970) <=? Z.abs z.

(** [v / 10].  [bool] is a subclass of [int]. *)
Definition true_div10 (v : json) : result Q :=
  match v with
  | JInt z => if float_overflow z then Raise OverflowError
              else Ok (inject_Z z / 10)%Q
  | JBool b => Ok (inject_Z (if b then 1 else 0) / 10)%Q
  | JFloat q => Ok (q / 10)%Q
  | _ => Raise TypeError
  end.

Fixpoint chars (s : string) : list json :=
  match s with
  | EmptyString => []
  | String c s' => JStr (String c EmptyString) :: chars s'
  end.

(** The items a [for] loop draws from [v]: the elements of a list, the
    characters of a [str], the keys of a [dict]. *)
Definition py_iter (v : json) : result (list json) :=
  match v with
  | JList l => Ok l
  | JStr s => Ok (chars s)
  | JObj kv => Ok (map (fun p => JStr (fst p)) kv)
  | _ => Raise TypeError
  end.

(** [len(v)]. *)
Definition py_len (v : json) : result nat :=
  match v with
  | JList l => Ok (List.length l)
  | JStr s => Ok (String.length s)
  | JObj kv => Ok (List.length kv)
  | _ => Raise TypeError
  end.

(** Whether [v] can be a [dict] key. *)
Definition hashable (v : json) : bool :=
  match v with
  | JList _ | JObj _ => false
  | _ => true
  end.

Definition as_number (v : json) : option Q :=
  match v with
  | JBool b => Some (inject_Z (if b then 1 else 0))
  | JInt z => Some (inject_Z z)
  | JFloat q => Some q
  | _ => None
  end.

(** Equality of two hashable values as [dict] keys: [True == 1 == 1.0]. *)
Definition key_eqb (a b : json) : bool :=
  match a, b with
  | JNull, JNull => true
  | JStr s, JStr t => String.eqb s t
  | _, _ => match as_number a, as_number b with
            | Some p, Some q => Qeq_bool p q
            | _, _ => false
            end
  end.

(** [d[k] = v] on a [dict] with arbitrary hashable keys: an existing key
    keeps its place and its first spelling, a new key goes last. *)
Fixpoint dict_set (d : list (json * json)) (k v : json) : list (json * json) :=
  match d with
  | [] => [(k, v)]
  | (k', v') :: d' => if key_eqb k' k then (k', v) :: d'
                      else (k', v') :: dict_set d' k v
  end.

(** ** The upstream HTTP API *)

(** What [response.json()] does: it raises a [ValueError]
    ([json.JSONDecodeError]) with a message, or returns the decoded value,
    or raises an exception of another class ([RecursionError] on a body
    nested too deep). *)
Inductive body : Type :=
| Malformed (msg : string)
| Parsed (data : json)
| Unreadable (cls : string).

Record response : Type := mkResponse { status_code : Z; content : body }.

(** What [await client.get(url)] does: it raises an [httpx.RequestError]
    (time-out, connection failure, ...) with a message, or returns a
    response, or raises an exception of another class ([httpx.InvalidURL]
    for a URL that cannot be sent). *)
Inductive reply : Type :=
| Failed (msg : string)
| Returned (r : response)
| Aborted (cls : string).

(** The upstream as the handlers see it: a reply for every URL. *)
Definition upstream : Type := string -> reply.

Definition client_get (net : upstream) (url : string) : result response :=
  match net url with
  | Failed msg => Raise (RequestError msg)
  | Returned r => Ok r
  | Aborted cls => Raise (OtherError cls)
  end.

Definition response_json (r : response) : result json :=
  match content r with
  | Malformed msg => Raise (ValueError msg)
  | Parsed data => Ok data
  | Unreadable cls => Raise (OtherError cls)
  end.

(** * The resource server *)

(** ** Result shapes *)

Module Starter.
Record t : Type := mk { id : string; name : string; uri : string }.
End Starter.

Module Starters.
Record t : Type := mk { starters : list Starter.t; total : nat }.
End Starters.

Module Pokemon.
Record t : Type := mk {
  id : json;
  name : string;
  height : Q;
  weight : Q;
  types : list json;
  abilities : list json;
  base_stats : list (json * json);
  sprite : json;
  api_url : string
}.
End Pokemon.

Module TypeEntry.
Record t : Type := mk { name : string; uri : string }.
End TypeEntry.

Module TypeSummary.
Record t : Type := mk {
  type : string;
  type_id : json;
  pokemon_count : nat;
  showing : nat;
  pokemon : list TypeEntry.t
}.
End TypeSummary.

(** ** [list_starters] *)

Definition STARTERS : list (string * string) :=
  [("1", "bulbasaur"); ("4", "charmander"); ("7", "squirtle")].

Definition list_starters : Starters.t :=
  {| Starters.starters :=
       map (fun '(pid, name) =>
              {| Starter.id := pid;
                 Starter.name := capitalize name;
                 Starter.uri := "poke://pokemon/" ++ pid |})
           STARTERS;
     Starters.total := List.length STARTERS |}.

(** ** [get_pokemon] *)

Definition pokemon_url (pokemon_id_or_name : string) : string :=
  "https://pokeapi.co/api/v2/pokemon/" ++ pokemon_id_or_name.

(** The dict comprehension of [base_stats]: for each item the key
    expression, then the value expression, then the insertion, which
    hashes the key. *)
Fixpoint stats_dict (items : list json) (acc : list (json * json))
  : result (list (json * json)) :=
  match items with
  | [] => Ok acc
  | stat :: rest =>
      k <- getitem2 stat "stat" "name" ;;
      v <- getitem stat "base_stat" ;;
      if hashable k then stats_dict rest (dict_set acc k v)
      else Raise TypeError
  end.

(** The statements of the [try] block, after the request. *)
Definition pokemon_of_response (pokemon_id_or_name : string) (response : response)
  : result Pokemon.t :=
  if status_code response =? 404 then
    Raise (ResourceError
             ("Pokémon with ID/name '" ++ pokemon_id_or_name ++ "' not found"))
  else if negb (status_code response =? 200) then
    Raise (ResourceError ("PokeAPI error: HTTP " ++ show_int (status_code response)))
  else
    data <- response_json response ;;
    v_id <- getitem data "id" ;;
    v_name <- (n <- getitem data "name" ;; capitalize_method n) ;;
    v_height <- (h <- getitem data "height" ;; true_div10 h) ;;
    v_weight <- (w <- getitem data "weight" ;; true_div10 w) ;;
    v_types <- (ts <- getitem data "types" ;; items <- py_iter ts ;;
                mapM (fun t => getitem2 t "type" "name") items) ;;
    v_abilities <- (ab <- getitem data "abilities" ;; items <- py_iter ab ;;
                    mapM (fun a => getitem2 a "ability" "name") items) ;;
    v_stats <- (ss <- getitem data "stats" ;; items <- py_iter ss ;;
                stats_dict items []) ;;
    v_sprite <- getitem2 data "sprites" "front_default" ;;
    Ok {| Pokemon.id := v_id;
          Pokemon.name := v_name;
          Pokemon.height := v_height;
          Pokemon.weight := v_weight;
          Pokemon.types := v_types;
          Pokemon.abilities := v_abilities;
          Pokemon.base_stats := v_stats;
          Pokemon.sprite := v_sprite;
          Pokemon.api_url := pokemon_url pokemon_id_or_name |}.

(** The two [except] clauses of [get_pokemon]. *)
Definition pokemon_except (e : exn) : option exn :=
  match e with
  | RequestError m => Some (ResourceError ("Failed to fetch Pokémon data: " ++ m))
  | KeyError m | ValueError m =>
      Some (ResourceError ("Error processing Pokémon data: " ++ m))
  | _ => None
  end.

Definition get_pokemon (net : upstream) (pokemon_id_or_name : string)
  : result Pokemon.t :=
  try_except
    (response <- client_get net (pokemon_url pokemon_id_or_name) ;;
     pokemon_of_response pokemon_id_or_name response)
    pokemon_except.

(** ** [get_pokemon_by_type] *)

Definition type_url (type_name : string) : string :=
  "https://pokeapi.co/api/v2/type/" ++ type_name.

Fixpoint take_chars (n : nat) (s : string) : string :=
  match n, s with
  | S n', String c s' => String c (take_chars n' s')
  | _, _ => EmptyString
  end.

Section Interpreter.

(** From Python 3.12 on a [slice] is hashable, so that slicing a [dict]
    raises [KeyError]; before, it raises [TypeError]. *)
Variable slices_hashable : bool.

(** [v[:10]]. *)
Definition slice10 (v : json) : result json :=
  match v with
  | JList l => Ok (JList (firstn 10 l))
  | JStr s => Ok (JStr (take_chars 10 s))
  | JObj _ => if slices_hashable then Raise (KeyError "slice(None, 10, None)")
              else Raise TypeError
  | _ => Raise TypeError
  end.

(** One entry of the [pokemon] list: [name] is evaluated before [uri],
    so that [uri] is only ever formatted from a [str]. *)
Definition type_entry (p : json) : result TypeEntry.t :=
  n <- getitem2 p "pokemon" "name" ;;
  match n with
  | JStr s => Ok {| TypeEntry.name := capitalize s;
                    TypeEntry.uri := "poke://pokemon/" ++ s |}
  | _ => Raise AttributeError
  end.

Definition summary_of_response (type_name : string) (response : response)
  : result TypeSummary.t :=
  if status_code response =? 404 then
    Raise (ResourceError ("Type '" ++ type_name ++ "' not found"))
  else if negb (status_code response =? 200) then
    Raise (ResourceError ("PokeAPI error: HTTP " ++ show_int (status_code response)))
  else
    data <- response_json response ;;
    pokemon_list <- (ps <- getitem data "pokemon" ;; slice10 ps) ;;
    v_id <- getitem data "id" ;;
    v_count <- (ps <- getitem data "pokemon" ;; py_len ps) ;;
    v_showing <- py_len pokemon_list ;;
    v_pokemon <- (items <- py_iter pokemon_list ;; mapM type_entry items) ;;
    Ok {| TypeSummary.type := capitalize type_name;
          TypeSummary.type_id := v_id;
          TypeSummary.pokemon_count := v_count;
          TypeSummary.showing := v_showing;
          TypeSummary.pokemon := v_pokemon |}.

Definition type_except (e : exn) : option exn :=
  match e with
  | RequestError m => Some (ResourceError ("Failed to fetch type data: " ++ m))
  | KeyError m | ValueError m =>
      Some (ResourceError ("Error processing type data: " ++ m))
  | _ => None
  end.

Definition get_pokemon_by_type (net : upstream) (type_name : string)
  : result TypeSummary.t :=
  try_except
    (response <- client_get net (type_url type_name) ;;
     summary_of_response type_name response)
    type_except.

End Interpreter.

(** ** The three resources as one server *)





(** * The agent client *)

Module Client.

(** [os.environ], and the bindings of the [.env] file that [load_dotenv]
    finds (none when there is no such file). *)
Definition environ : Type := list (string * string).

Fixpoint getenv (env : environ) (k : string) : option string :=
  match env with
  | [] => None
  | (k', v) :: env' => if String.eqb k k' then Some v else getenv env' k
  end.

Fixpoint putenv (env : environ) (k v : string) : environ :=
  match env with
  | [] => [(k, v)]
  | (k', v') :: env' => if String.eqb k k' then (k', v) :: env'
                        else (k', v') :: putenv env' k v
  end.

(** [load_dotenv()]: a binding of the file is put in the environment
    unless the variable is set already. *)
Definition load_dotenv (dotenv env : environ) : environ :=
  fold_left (fun e '(k, v) => match getenv e k with
                             | Some _ => e
                             | None => putenv e k v
                             end) dotenv env.

Inductive crash : Type :=
| EnvTypeError                 (* os.environ[k] = None *)
| StepFailed (step : string).  (* a library call raised *)

(** [os.environ[k] = v]: the value has to be a [str]. *)
Definition environ_setitem (env : environ) (k : string) (v : option string)
  : environ + crash :=
  match v with
  | Some s => inl (putenv env k s)
  | None => inr EnvTypeError
  end.

(** What the client does that can be seen from outside, in order. *)
Inductive event : Type :=
| LlmConstructed
| ServerLaunched
| SessionOpened
| SessionInitialized
| ToolsListed
| AgentCreated
| AgentInvoked
| Printed (text : string).

(** How the library calls of one run turn out. *)
Record world : Type := mkWorld {
  llm_ok : bool;
  launch_ok : bool;
  session_ok : bool;
  initialize_ok : bool;
  tools : option string;
  agent_ok : bool;
  final_answer : option string
}.

Inductive outcome : Type :=
| Finished
| Crashed (c : crash).

(** A run: the events so far and how the rest goes. *)
Definition run : Type := list event * outcome.

Definition failed (what : string) : run := ([], Crashed (StepFailed what)).

Definition emit (ev : event) (rest : run) : run := (ev :: fst rest, snd rest).

(** A library call that returns nothing of interest. *)
Definition step (ok : bool) (what : string) (ev : event) (rest : run) : run :=
  if ok then emit ev rest else failed what.

(** A library call whose result the rest of the run uses. *)
Definition call {A : Type} (res : option A) (what : string) (ev : event)
  (rest : A -> run) : run :=
  match res with
  | Some a => emit ev (rest a)
  | None => failed what
  end.

Definition print (text : string) (rest : run) : run := emit (Printed text) rest.

(** The body of [main()]. *)
Definition main (w : world) : run :=
  step (launch_ok w) "stdio_client" ServerLaunched
    (step (session_ok w) "ClientSession" SessionOpened
      (step (initialize_ok w) "initialize" SessionInitialized
        (print "session initialized"
          (call (tools w) "load_mcp_tools" ToolsListed (fun ts =>
             print ("tools: " ++ ts)
               (step (agent_ok w) "create_agent" AgentCreated
                 (call (final_answer w) "ainvoke" AgentInvoked (fun a =>
                    print a ([], Finished))))))))).

(** The module from its first statement to [asyncio.run(main())]. *)
Definition client (dotenv env : environ) (w : world) : run :=
  let env1 := load_dotenv dotenv env in
  match environ_setitem env1 "GROQ_API_KEY" (getenv env1 "GROQ_API_KEY") with
  | inr c => ([], Crashed c)
  | inl _ => step (llm_ok w) "ChatGroq" LlmConstructed (main w)
  end.

End Client.

(** * Vocabulary of the specification *)

(** "The first letter capitalized", read literally: the first character
    upper-cased and nothing else touched. *)
Definition capitalize_first (s : string) : string :=
  match s with
  | EmptyString => EmptyString
  | String c s' => String (to_upper c) s'
  end.

(** No upper-case letter after the first character. *)
Fixpoint no_upper (s : string) : bool :=
  match s with
  | EmptyString => true
  | String c s' => (negb (is_upper c) && no_upper s')%bool
  end.

Definition lower_tail (s : string) : bool :=
  match s with
  | EmptyString => true
  | String _ s' => no_upper s'
  end.

Definition is_str (v : json) : bool :=
  match v with JStr _ => true | _ => false end.

Definition is_int (v : json) : bool :=
  match v with JInt _ => true | _ => false end.

Definition is_optional_str (v : json) : bool :=
  match v with JStr _ | JNull => true | _ => false end.

(** A sequence that stands for a set of strings: strings, none twice. *)
Definition set_of_strings (l : list json) : Prop :=
  Forall (fun v => is_str v = true) l /\ NoDup l.

(** The shape the data model gives a PokemonRecord. *)
Definition record_shape (r : Pokemon.t) : Prop :=
  set_of_strings (Pokemon.types r) /\
  set_of_strings (Pokemon.abilities r) /\
  Forall (fun kv => is_str (fst kv) = true /\ is_int (snd kv) = true)
         (Pokemon.base_stats r) /\
  is_optional_str (Pokemon.sprite r) = true.

(** The items a [for] loop draws from [data[field]]. *)
Definition field_items (data : json) (field : string) : result (list json) :=
  x <- getitem data field ;; py_iter x.

(** [d.get(q)] on a [dict] with arbitrary hashable keys. *)
Fixpoint dict_get (d : list (json * json)) (q : json) : option json :=
  match d with
  | [] => None
  | (k, v) :: d' => if key_eqb k q then Some v else dict_get d' q
  end.

(** The [base_stat] of the last of [items] whose stat name equals [q]. *)
Fixpoint stat_lookup (items : list json) (q : json) : option json :=
  match items with
  | [] => None
  | stat :: rest =>
      match stat_lookup rest q with
      | Some v => Some v
      | None =>
          match getitem2 stat "stat" "name", getitem stat "base_stat" with
          | Ok k, Ok v => if key_eqb k q then Some v else None
          | _, _ => None
          end
      end
  end.

(** * Sample upstream replies *)

(** An upstream that answers every request with status [code] and the
    decoded payload [data]. *)
Definition serving (code : Z) (data : json) : upstream :=
  fun _ => Returned (mkResponse code (Parsed data)).

(** An upstream that answers every request with a 404. *)
Definition gone : upstream := fun _ => Returned (mkResponse 404 (Malformed "")).

Definition named (field n : string) : json :=
  JObj [(field, JObj [("name", JStr n)])].

Definition stat_entry (n : string) (b : Z) : json :=
  JObj [("base_stat", JInt b); ("stat", JObj [("name", JStr n)])].

Definition pokemon_payload (n : string) (h w : Z) (ts : list string) : json :=
  JObj [("id", JInt 1); ("name", JStr n); ("height", JInt h); ("weight", JInt w);
        ("types", JList (map (named "type") ts));
        ("abilities", JList [named "ability" "overgrow"; named "ability" "chlorophyll"]);
        ("stats", JList [stat_entry "hp" 45; stat_entry "attack" 49]);
        ("sprites", JObj [("front_default", JStr "https://img.example/1.png")])].

Definition bulbasaur : json := pokemon_payload "bulbasaur" 7 69 ["grass"; "poison"].

(** A payload that stops after the name. *)
Definition no_height : json := JObj [("id", JInt 1); ("name", JStr "bulbasaur")].

Definition fire_members : list json :=
  map (named "pokemon")
      ["charmander"; "charmeleon"; "charizard"; "vulpix"; "ninetales"; "growlithe";
       "arcanine"; "ponyta"; "rapidash"; "magmar"; "flareon"; "moltres"].

Definition fire_payload : json :=
  JObj [("id", JInt 10); ("name", JStr "fire"); ("pokemon", JList fire_members)].

Definition good_world : Client.world :=
  {| Client.llm_ok := true; Client.launch_ok := true; Client.session_ok := true;
     Client.initialize_ok := true; Client.tools := Some "[add, multiply]";
     Client.agent_ok := true; Client.final_answer := Some "60" |}.

(** * The server as a process *)

(** The upstream over time: [net n] is the upstream as it answers the
    request that the process sends after [n] earlier ones.  Nothing makes
    it answer twice alike. *)
Definition network : Type := nat -> upstream.

Module Process.

(** What lasts in the server process from one read to the next: the
    module-level [dict] [STARTERS], which a statement of the module could
    assign to, and the number of requests sent so far.  The HTTP client
    does not last: each look-up makes its own and closes it. *)
Record t : Type := mk { table : list (string * string); sent : nat }.


(** [await client.get(url)]: the process sends one more request, and the
    upstream answers it as it does at that moment. *)
Definition get (net : network) (url : string) (p : t) : result response * t :=
  (client_get (net (sent p)) url, {| table := table p; sent := S (sent p) |}).

(** [list_starters]: the listing is made from the table as it is now. *)
Definition list_starters (p : t) : Starters.t * t :=
  ({| Starters.starters :=
        map (fun '(pid, name) =>
               {| Starter.id := pid;
                  Starter.name := capitalize name;
                  Starter.uri := "poke://pokemon/" ++ pid |})
            (table p);
      Starters.total := List.length (table p) |},
   p).

(** [get_pokemon]: one request, then the statements of the [try] block on
    the response, which touch nothing of the process. *)
Definition get_pokemon (net : network) (pokemon_id_or_name : string) (p : t)
  : result Pokemon.t * t :=
  let (got, p') := get net (pokemon_url pokemon_id_or_name) p in
  (try_except (response <- got ;; pokemon_of_response pokemon_id_or_name response)
              pokemon_except,
   p').

Definition get_pokemon_by_type (slices_hashable : bool) (net : network)
  (type_name : string) (p : t) : result TypeSummary.t * t :=
  let (got, p') := get net (type_url type_name) p in
  (try_except (response <- got ;;
               summary_of_response slices_hashable type_name response)
              type_except,
   p').




End Process.


(** * Vocabulary of the further properties *)


(** The exceptions that reading a decoded payload can raise. *)
Definition lookup_exn (e : exn) : Prop :=
  match e with
  | KeyError _ | TypeError | AttributeError => True
  | _ => False
  end.


(** No two keys of a [dict] are equal. *)
Fixpoint keys_distinct (d : list (json * json)) : Prop :=
  match d with
  | [] => True
  | (k, _) :: d' => Forall (fun kv => key_eqb k (fst kv) = false) d' /\ keys_distinct d'
  end.

(** The entry [get_pokemon_by_type] makes of a member called [n]. *)
Definition entry_of_name (n : string) : TypeEntry.t :=
  {| TypeEntry.name := capitalize n; TypeEntry.uri := "poke://pokemon/" ++ n |}.

(** The stat entry [stat] gives the comprehension of [base_stats] the
    key and the value of [kv]. *)
Definition stat_gives (stat : json) (kv : json * json) : Prop :=
  getitem2 stat "stat" "name" = Ok (fst kv) /\ hashable (fst kv) = true
  /\ getitem stat "base_stat" = Ok (snd kv).

(** The [dict] that assigning the pairs of [kvs] in turn builds from [d]. *)
Definition dict_from (d kvs : list (json * json)) : list (json * json) :=
  fold_left (fun acc kv => dict_set acc (fst kv) (snd kv)) kvs d.

(** The events of a client run in which nothing fails, for the tool list
    [ts] and the answer [a]. *)
Definition client_script (ts a : string) : list Client.event :=
  [Client.LlmConstructed; Client.ServerLaunched; Client.SessionOpened;
   Client.SessionInitialized; Client.Printed "session initialized";
   Client.ToolsListed; Client.Printed ("tools: " ++ ts);
   Client.AgentCreated; Client.AgentInvoked; Client.Printed a].

Definition or_empty (o : option string) : string :=
  match o with Some x => x | None => "" end.

(** Every library call of the run succeeds. *)
Definition all_ok (w : Client.world) : bool :=
  (Client.llm_ok w && Client.launch_ok w && Client.session_ok w
   && Client.initialize_ok w
   && match Client.tools w with Some _ => true | None => false end
   && Client.agent_ok w
   && match Client.final_answer w with Some _ => true | None => false end)%bool.

(** GROQ_API_KEY is bound in the environment or in the [.env] file. *)
Definition has_credential (dotenv env : Client.environ) : bool :=
  match Client.getenv env "GROQ_API_KEY", Client.getenv dotenv "GROQ_API_KEY" with
  | None, None => false
  | _, _ => true
  end.

(** The status that an upstream-error message names, read back. *)
Definition status_in (digits : string) : option Z :=
  option_map Z.of_int (NilZero.int_of_string digits).

(** A payload with an integer height beyond every binary64 number. *)
Definition giant : json :=
  JObj [("id", JInt 1); ("name", JStr "wailord"); ("height", JInt (10 ^ 400));
        ("weight", JInt 3980)].

(** A type payload whose eleventh member is not an object. *)
Definition ragged_payload : json :=
  JObj [("id", JInt 10); ("name", JStr "fire");
        ("pokemon", JList (firstn 10 fire_members ++ [JNull; JInt 3]))].

(** * Properties *)

(** ** Reasoning about [result] *)

Lemma bind_Ok {A B : Type} (m : result A) (k : A -> result B) (b : B) :
  bind m k = Ok b -> exists a, m = Ok a /\ k a = Ok b.
Proof.
  destruct m as [a|e]; simpl; intros H.
  - exists a. split; [reflexivity | exact H].
  - discriminate H.
Qed.

Lemma Ok_inj {A : Type} (a b : A) : Ok a = Ok b -> a = b.
Proof. intros H. injection H as H. exact H. Qed.

Lemma try_except_Ok {A : Type} (m : result A) (h : exn -> option exn) (a : A) :
  try_except m h = Ok a -> m = Ok a.
Proof.
  destruct m as [a'|e]; simpl; [trivial|].
  destruct (h e); discriminate.
Qed.

Lemma try_except_resource {A : Type} (h : exn -> option exn) (msg : string) :
  h (ResourceError msg) = None ->
  try_except (A := A) (Raise (ResourceError msg)) h = Raise (ResourceError msg).
Proof. intros H. simpl. rewrite H. reflexivity. Qed.

Lemma mapM_Forall2 {A B : Type} (f : A -> result B) (l : list A) (l' : list B) :
  mapM f l = Ok l' -> Forall2 (fun a b => f a = Ok b) l l'.
Proof.
  revert l'. induction l as [|a l IH]; simpl; intros l' H.
  - injection H as <-. constructor.
  - apply bind_Ok in H. destruct H as (b & Hb & H).
    apply bind_Ok in H. destruct H as (bs & Hbs & H).
    injection H as <-. constructor; [exact Hb | apply IH; exact Hbs].
Qed.

(** ** Status codes *)

Lemma pokemon_of_response_status (s : string) (r : response) :
  status_code r <> 200 ->
  pokemon_of_response s r =
  Raise (ResourceError
           (if status_code r =? 404
            then "Pokémon with ID/name '" ++ s ++ "' not found"
            else "PokeAPI error: HTTP " ++ show_int (status_code r))).
Proof.
  intros H. unfold pokemon_of_response.
  destruct (status_code r =? 404); [reflexivity|].
  destruct (Z.eqb_spec (status_code r) 200) as [E|_]; [contradiction|reflexivity].
Qed.

Lemma summary_of_response_status (v : bool) (t : string) (r : response) :
  status_code r <> 200 ->
  summary_of_response v t r =
  Raise (ResourceError
           (if status_code r =? 404
            then "Type '" ++ t ++ "' not found"
            else "PokeAPI error: HTTP " ++ show_int (status_code r))).
Proof.
  intros H. unfold summary_of_response.
  destruct (status_code r =? 404); [reflexivity|].
  destruct (Z.eqb_spec (status_code r) 200) as [E|_]; [contradiction|reflexivity].
Qed.

(** C9.  In both lookup handlers the resource error raised for a status
    other than 200 goes through the [except] clauses untouched: they have
    no clause for a [ResourceError], so a 404 surfaces with its not-found
    message naming the identifier, and any other status with the message
    naming the status code; neither is reported as a fetch failure or a
    processing error. *)
Theorem status_error_not_rewrapped
  (v : bool) (net : upstream) (s t : string) (rp rt : response) :
  net (pokemon_url s) = Returned rp ->
  net (type_url t) = Returned rt ->
  status_code rp <> 200 ->
  status_code rt <> 200 ->
  (forall msg, pokemon_except (ResourceError msg) = None
               /\ type_except (ResourceError msg) = None) /\
  get_pokemon net s =
    Raise (ResourceError
             (if status_code rp =? 404
              then "Pokémon with ID/name '" ++ s ++ "' not found"
              else "PokeAPI error: HTTP " ++ show_int (status_code rp))) /\
  get_pokemon_by_type v net t =
    Raise (ResourceError
             (if status_code rt =? 404
              then "Type '" ++ t ++ "' not found"
              else "PokeAPI error: HTTP " ++ show_int (status_code rt))).
Proof.
  intros Hp Ht Sp St. split; [|split].
  - intros msg. split; reflexivity.
  - unfold get_pokemon, client_get. rewrite Hp. cbn [bind].
    rewrite (pokemon_of_response_status s rp Sp).
    apply try_except_resource. reflexivity.
  - unfold get_pokemon_by_type, client_get. rewrite Ht. cbn [bind].
    rewrite (summary_of_response_status v t rt St).
    apply try_except_resource. reflexivity.
Qed.

Lemma status_error_not_rewrapped_witness :
  get_pokemon gone "999999"
  = Raise (ResourceError "Pokémon with ID/name '999999' not found")
  /\ get_pokemon_by_type true gone "sound"
     = Raise (ResourceError "Type 'sound' not found").
Proof.
  pose proof (status_error_not_rewrapped true gone "999999" "sound"
                (mkResponse 404 (Malformed "")) (mkResponse 404 (Malformed ""))
                eq_refl eq_refl) as H.
  simpl status_code in H.
  destruct H as (_ & Hp & Ht); [lia | lia |].
  split; [exact Hp | exact Ht].
Defined.

(** ** The starter listing *)

(** C3.  [list_starters] takes no input and consults no upstream; it is a
    value, so it cannot fail.  It holds exactly three entries, one for each
    of the ids "1", "4" and "7" in that order, with the capitalized names
    and the locators [poke://pokemon/{id}], and a total of 3. *)
Theorem list_starters_value :
  list_starters =
  {| Starters.starters :=
       [ {| Starter.id := "1"; Starter.name := "Bulbasaur";
            Starter.uri := "poke://pokemon/1" |};
         {| Starter.id := "4"; Starter.name := "Charmander";
            Starter.uri := "poke://pokemon/4" |};
         {| Starter.id := "7"; Starter.name := "Squirtle";
            Starter.uri := "poke://pokemon/7" |} ];
     Starters.total := 3 |}
  /\ List.length (Starters.starters list_starters) = 3%nat
  /\ Forall (fun e => Starter.uri e = "poke://pokemon/" ++ Starter.id e)
            (Starters.starters list_starters).
Proof.
  split; [reflexivity|]. split; [reflexivity|].
  repeat constructor.
Qed.

(** ** Successful Pokemon look-ups *)

(** What a look-up that returns a record has read from the payload. *)
Lemma pokemon_of_response_Ok (s : string) (data : json) (r : Pokemon.t) :
  pokemon_of_response s (mkResponse 200 (Parsed data)) = Ok r ->
  exists vn hv wv ts ab ss,
    getitem data "id" = Ok (Pokemon.id r) /\
    getitem data "name" = Ok vn /\ capitalize_method vn = Ok (Pokemon.name r) /\
    getitem data "height" = Ok hv /\ true_div10 hv = Ok (Pokemon.height r) /\
    getitem data "weight" = Ok wv /\ true_div10 wv = Ok (Pokemon.weight r) /\
    (x <- getitem data "types" ;; py_iter x) = Ok ts /\
    mapM (fun t => getitem2 t "type" "name") ts = Ok (Pokemon.types r) /\
    (x <- getitem data "abilities" ;; py_iter x) = Ok ab /\
    mapM (fun a => getitem2 a "ability" "name") ab = Ok (Pokemon.abilities r) /\
    (x <- getitem data "stats" ;; py_iter x) = Ok ss /\
    stats_dict ss [] = Ok (Pokemon.base_stats r) /\
    getitem2 data "sprites" "front_default" = Ok (Pokemon.sprite r) /\
    Pokemon.api_url r = pokemon_url s.
Proof.
  unfold pokemon_of_response. cbn [status_code Z.eqb Pos.eqb negb response_json content].
  intros H.
  apply bind_Ok in H. destruct H as (data' & Ed & H). injection Ed as <-.
  apply bind_Ok in H. destruct H as (vid & Eid & H).
  apply bind_Ok in H. destruct H as (nm & Enm & H).
  apply bind_Ok in Enm. destruct Enm as (vn & Evn & Ecap).
  apply bind_Ok in H. destruct H as (hq & Eh & H).
  apply bind_Ok in Eh. destruct Eh as (hv & Ehv & Ehq).
  apply bind_Ok in H. destruct H as (wq & Ew & H).
  apply bind_Ok in Ew. destruct Ew as (wv & Ewv & Ewq).
  apply bind_Ok in H. destruct H as (tys & Et & H).
  apply bind_Ok in Et. destruct Et as (tv & Etv & Et).
  apply bind_Ok in Et. destruct Et as (ts & Ets & Etys).
  apply bind_Ok in H. destruct H as (abs & Ea & H).
  apply bind_Ok in Ea. destruct Ea as (av & Eav & Ea).
  apply bind_Ok in Ea. destruct Ea as (ab & Eab & Eabs).
  apply bind_Ok in H. destruct H as (st & Es & H).
  apply bind_Ok in Es. destruct Es as (sv & Esv & Es).
  apply bind_Ok in Es. destruct Es as (ss & Ess & Est).
  apply bind_Ok in H. destruct H as (sp & Esp & H).
  injection H as <-. cbn.
  exists vn, hv, wv, ts, ab, ss.
  rewrite Etv, Eav, Esv. cbn [bind].
  repeat split; assumption.
Qed.

Lemma get_pokemon_Ok (net : upstream) (s : string) (data : json) (r : Pokemon.t) :
  net (pokemon_url s) = Returned (mkResponse 200 (Parsed data)) ->
  get_pokemon net s = Ok r ->
  pokemon_of_response s (mkResponse 200 (Parsed data)) = Ok r.
Proof.
  intros Hn H. unfold get_pokemon, client_get in H. rewrite Hn in H.
  apply try_except_Ok in H. exact H.
Qed.

(** C10.  The record of a successful look-up with identifier [s] has an
    [api_url] field, and its value is the string
    "https://pokeapi.co/api/v2/pokemon/" followed by [s]. *)
Theorem api_url_of_lookup (net : upstream) (s : string) (r : Pokemon.t) :
  get_pokemon net s = Ok r ->
  Pokemon.api_url r = "https://pokeapi.co/api/v2/pokemon/" ++ s.
Proof.
  intros H. unfold get_pokemon in H. apply try_except_Ok in H.
  apply bind_Ok in H. destruct H as (resp & _ & H).
  unfold pokemon_of_response in H.
  destruct (status_code resp =? 404); [discriminate|].
  destruct (negb (status_code resp =? 200)); [discriminate|].
  repeat (apply bind_Ok in H; destruct H as (? & _ & H)).
  injection H as <-. reflexivity.
Qed.

Lemma api_url_of_lookup_witness :
  exists r, get_pokemon (serving 200 bulbasaur) "1" = Ok r
            /\ Pokemon.api_url r = "https://pokeapi.co/api/v2/pokemon/1".
Proof.
  eexists. split; [reflexivity|].
  apply (api_url_of_lookup (serving 200 bulbasaur) "1"). reflexivity.
Defined.

(** ** Units and display name *)

Lemma true_div10_Ok (v : json) (q : Q) :
  true_div10 v = Ok q -> exists n, as_number v = Some n /\ q = (n / 10)%Q.
Proof.
  destruct v as [|b|z|f|?|?|?]; simpl; try discriminate.
  - intros H. injection H as <-. eexists. split; reflexivity.
  - destruct (float_overflow z); [discriminate|].
    intros H. injection H as <-. eexists. split; reflexivity.
  - intros H. injection H as <-. eexists. split; reflexivity.
Qed.

Lemma capitalize_method_Ok (v : json) (c : string) :
  capitalize_method v = Ok c -> exists n, v = JStr n /\ c = capitalize n.
Proof.
  destruct v; simpl; try discriminate.
  intros H. injection H as <-. eexists. split; reflexivity.
Qed.

Lemma lower_no_upper (s : string) : no_upper s = true -> lower s = s.
Proof.
  induction s as [|c s IH]; simpl; [reflexivity|].
  intros H. apply andb_prop in H. destruct H as [Hc Hs].
  unfold to_lower. apply negb_true_iff in Hc. rewrite Hc, (IH Hs). reflexivity.
Qed.

Lemma capitalize_lower_tail (s : string) :
  lower_tail s = true -> capitalize s = capitalize_first s.
Proof.
  destruct s as [|c s]; simpl; [reflexivity|].
  intros H. rewrite (lower_no_upper s H). reflexivity.
Qed.

(** C4, as the code has it.  The record of a successful look-up holds the
    upstream height and weight divided by 10, and as name the upstream
    name with its first character upper-cased and every other character
    lower-cased; for an upstream name without an upper-case letter after
    its first character that is the upstream name with the first letter
    capitalized. *)
Theorem pokemon_units_and_name
  (net : upstream) (s : string) (data : json) (r : Pokemon.t) :
  net (pokemon_url s) = Returned (mkResponse 200 (Parsed data)) ->
  get_pokemon net s = Ok r ->
  exists n hv wv h w,
    getitem data "name" = Ok (JStr n) /\
    getitem data "height" = Ok hv /\ as_number hv = Some h /\
    getitem data "weight" = Ok wv /\ as_number wv = Some w /\
    Pokemon.height r = (h / 10)%Q /\
    Pokemon.weight r = (w / 10)%Q /\
    Pokemon.name r = capitalize n /\
    (lower_tail n = true -> Pokemon.name r = capitalize_first n).
Proof.
  intros Hn H. apply (get_pokemon_Ok net s data r Hn) in H.
  apply pokemon_of_response_Ok in H.
  destruct H as (vn & hv & wv & _ & _ & _ & _ & En & Ec & Eh & Ehq & Ew & Ewq & _).
  apply capitalize_method_Ok in Ec. destruct Ec as (n & -> & Ec).
  apply true_div10_Ok in Ehq. destruct Ehq as (h & Hh & Ehq).
  apply true_div10_Ok in Ewq. destruct Ewq as (w & Hw & Ewq).
  exists n, hv, wv, h, w.
  repeat split; try assumption.
  intros Hl. rewrite Ec. apply capitalize_lower_tail. exact Hl.
Qed.

Lemma pokemon_units_and_name_witness :
  exists r, get_pokemon (serving 200 bulbasaur) "1" = Ok r
            /\ Pokemon.name r = "Bulbasaur"
            /\ Pokemon.height r = (inject_Z 7 / 10)%Q
            /\ Pokemon.weight r = (inject_Z 69 / 10)%Q.
Proof.
  eexists. split; [reflexivity|].
  destruct (pokemon_units_and_name (serving 200 bulbasaur) "1" bulbasaur _
              eq_refl eq_refl)
    as (n & hv & wv & h & w & En & Eh & Hh & Ew & Hw & Rh & Rw & _ & Rn).
  injection En as <-. injection Eh as <-. injection Ew as <-.
  injection Hh as <-. injection Hw as <-.
  split; [exact (Rn eq_refl)|]. split; [exact Rh | exact Rw].
Defined.

(** C4, as stated, fails on the name: the letters after the first are
    lower-cased as well. *)
Lemma name_tail_is_lowered :
  exists r,
    get_pokemon (serving 200 (pokemon_payload "ho-Oh" 38 1990 ["fire"; "flying"])) "250"
    = Ok r
    /\ Pokemon.name r = "Ho-oh"
    /\ Pokemon.name r <> capitalize_first "ho-Oh".
Proof.
  eexists. split; [reflexivity|]. split; [reflexivity|]. discriminate.
Qed.

(** ** Sign of height and weight, and missing fields *)

Lemma tenth_sign (q : Q) : (0 <= q / 10 <-> 0 <= q)%Q.
Proof.
  destruct q as [n d]. unfold Qle, Qdiv, Qmult, Qinv. simpl. lia.
Qed.

Lemma get_pokemon_of_response (net : upstream) (s : string) (r : response) :
  net (pokemon_url s) = Returned r ->
  get_pokemon net s = try_except (pokemon_of_response s r) pokemon_except.
Proof.
  intros Hn. unfold get_pokemon, client_get. rewrite Hn. reflexivity.
Qed.

Lemma tenth_negative (q : Q) : (q < 0 -> q / 10 < 0)%Q.
Proof.
  destruct q as [n d]. unfold Qlt, Qdiv, Qmult, Qinv. simpl. lia.
Qed.

Lemma tenth_of_negative_int (z : Z) : z < 0 -> (inject_Z z / 10 <= -(1 # 10))%Q.
Proof.
  intros Hz. unfold Qle, Qdiv, Qmult, Qinv, inject_Z. simpl. lia.
Qed.

Section Rounding.

(** The rounding of an exact quotient to binary64, of which only this is
    assumed: it keeps the sign of what it rounds (a tiny negative quotient
    may round to zero), and it does not round a value of -1/10 or less to
    zero.  The float that Python computes for [x / 10] is the rounding of
    the quotient the model holds. *)
Variable round : Q -> Q.
Hypothesis round_nonneg : forall q, (0 <= q)%Q -> (0 <= round q)%Q.
Hypothesis round_nonpos : forall q, (q <= 0)%Q -> (round q <= 0)%Q.
Hypothesis round_negative : forall q, (q <= -(1 # 10))%Q -> (round q < 0)%Q.

(** C6, as the code has it.  The handler checks no range.  Whatever the
    rounding of the quotient, a non-negative upstream height (weight)
    gives a non-negative height (weight) in the record, a negative one
    gives a non-positive one, and a negative integer one gives a negative
    one.  A payload without a height or a weight field never gives a
    record; when the fields read before the missing one are in order (an
    id, a string name and, for the weight, a height that divides), the
    failure is the processing error naming the missing key. *)
Theorem height_weight_sign_and_presence
  (net : upstream) (s : string) (data : json) :
  net (pokemon_url s) = Returned (mkResponse 200 (Parsed data)) ->
  (forall r, get_pokemon net s = Ok r ->
     exists hv wv h w,
       getitem data "height" = Ok hv /\ as_number hv = Some h /\
       getitem data "weight" = Ok wv /\ as_number wv = Some w /\
       ((0 <= h)%Q -> (0 <= round (Pokemon.height r))%Q) /\
       ((h < 0)%Q -> (round (Pokemon.height r) <= 0)%Q) /\
       (forall z, hv = JInt z -> z < 0 -> (round (Pokemon.height r) < 0)%Q) /\
       ((0 <= w)%Q -> (0 <= round (Pokemon.weight r))%Q) /\
       ((w < 0)%Q -> (round (Pokemon.weight r) <= 0)%Q) /\
       (forall z, wv = JInt z -> z < 0 -> (round (Pokemon.weight r) < 0)%Q)) /\
  ((forall v, getitem data "height" <> Ok v) \/ (forall v, getitem data "weight" <> Ok v) ->
   forall r, get_pokemon net s <> Ok r) /\
  (forall i n,
     getitem data "id" = Ok i -> getitem data "name" = Ok (JStr n) ->
     getitem data "height" = Raise (KeyError "'height'") ->
     get_pokemon net s
     = Raise (ResourceError "Error processing Pokémon data: 'height'")) /\
  (forall i n hv h,
     getitem data "id" = Ok i -> getitem data "name" = Ok (JStr n) ->
     getitem data "height" = Ok hv -> true_div10 hv = Ok h ->
     getitem data "weight" = Raise (KeyError "'weight'") ->
     get_pokemon net s
     = Raise (ResourceError "Error processing Pokémon data: 'weight'")).
Proof.
  intros Hn. split; [|split; [|split]].
  - intros r H. apply (get_pokemon_Ok net s data r Hn) in H.
    apply pokemon_of_response_Ok in H.
    destruct H as (vn & hv & wv & _ & _ & _ & _ & _ & _ & Eh & Ehq & Ew & Ewq & _).
    apply true_div10_Ok in Ehq. destruct Ehq as (h & Hh & ->).
    apply true_div10_Ok in Ewq. destruct Ewq as (w & Hw & ->).
    exists hv, wv, h, w.
    split; [exact Eh|]. split; [exact Hh|]. split; [exact Ew|]. split; [exact Hw|].
    split; [intros P; apply round_nonneg, tenth_sign; exact P|].
    split; [intros N; apply round_nonpos, Qlt_le_weak, tenth_negative; exact N|].
    split; [intros z -> Hz; cbn [as_number] in Hh; injection Hh as <-;
            apply round_negative, tenth_of_negative_int; exact Hz|].
    split; [intros P; apply round_nonneg, tenth_sign; exact P|].
    split; [intros N; apply round_nonpos, Qlt_le_weak, tenth_negative; exact N|].
    intros z -> Hz. cbn [as_number] in Hw. injection Hw as <-.
    apply round_negative, tenth_of_negative_int. exact Hz.
  - intros Hmiss r H. apply (get_pokemon_Ok net s data r Hn) in H.
    apply pokemon_of_response_Ok in H.
    destruct H as (vn & hv & wv & _ & _ & _ & _ & _ & _ & Eh & _ & Ew & _).
    destruct Hmiss as [Hm|Hm]; [apply (Hm hv Eh) | apply (Hm wv Ew)].
  - intros i n Ei En Eh. rewrite (get_pokemon_of_response net s _ Hn).
    unfold pokemon_of_response.
    cbn [status_code Z.eqb Pos.eqb negb response_json content bind].
    rewrite Ei, En, Eh. reflexivity.
  - intros i n hv h Ei En Eh Ehq Ew. rewrite (get_pokemon_of_response net s _ Hn).
    unfold pokemon_of_response.
    cbn [status_code Z.eqb Pos.eqb negb response_json content bind].
    rewrite Ei, En, Eh. cbn [bind capitalize_method]. rewrite Ehq, Ew. reflexivity.
Qed.

End Rounding.

Lemma height_weight_sign_and_presence_witness :
  get_pokemon (serving 200 no_height) "1"
  = Raise (ResourceError "Error processing Pokémon data: 'height'")
  /\ exists r,
       get_pokemon (serving 200 (pokemon_payload "bulbasaur" (-7) 69 ["grass"])) "1"
       = Ok r
       /\ (Pokemon.height r < 0)%Q /\ (0 <= Pokemon.weight r)%Q.
Proof.
  split.
  - destruct (height_weight_sign_and_presence (fun q => q)
                (fun q H => H) (fun q H => H)
                (fun q H => Qle_lt_trans q (-(1 # 10)) 0 H eq_refl)
                (serving 200 no_height) "1" no_height eq_refl) as (_ & _ & H & _).
    apply (H (JInt 1) "bulbasaur"); reflexivity.
  - eexists. split; [reflexivity|].
    destruct (height_weight_sign_and_presence (fun q => q)
                (fun q H => H) (fun q H => H)
                (fun q H => Qle_lt_trans q (-(1 # 10)) 0 H eq_refl)
                (serving 200 (pokemon_payload "bulbasaur" (-7) 69 ["grass"])) "1"
                (pokemon_payload "bulbasaur" (-7) 69 ["grass"]) eq_refl)
      as (H & _).
    destruct (H _ eq_refl)
      as (hv & wv & h & w & Eh & Hh & Ew & Hw & _ & _ & Hneg & Hpos & _).
    apply Ok_inj in Eh. subst hv. apply Ok_inj in Ew. subst wv.
    cbn [as_number] in Hw. injection Hw as <-.
    split; [apply (Hneg (-7) eq_refl); reflexivity|].
    apply Hpos. discriminate.
Defined.

(** C6, as stated, fails on the sign: a negative upstream height gives a
    record with a negative height. *)
Lemma negative_height_accepted :
  exists r,
    get_pokemon (serving 200 (pokemon_payload "bulbasaur" (-7) 69 ["grass"])) "1" = Ok r
    /\ (Pokemon.height r < 0)%Q.
Proof.
  eexists. split; [reflexivity|]. reflexivity.
Qed.

(** ** Failures that the handlers wrap *)

(** A transport failure becomes the fetch-failed resource error. *)
Lemma transport_failure_wrapped (v : bool) (net : upstream) (s t msg : string) :
  (net (pokemon_url s) = Failed msg ->
   get_pokemon net s
   = Raise (ResourceError ("Failed to fetch Pokémon data: " ++ msg))) /\
  (net (type_url t) = Failed msg ->
   get_pokemon_by_type v net t
   = Raise (ResourceError ("Failed to fetch type data: " ++ msg))).
Proof.
  split; intros H.
  - unfold get_pokemon, client_get. rewrite H. reflexivity.
  - unfold get_pokemon_by_type, client_get. rewrite H. reflexivity.
Qed.

(** A 200 reply whose body does not decode becomes the processing error. *)
Lemma undecodable_body_wrapped (v : bool) (net : upstream) (s t msg : string) :
  (net (pokemon_url s) = Returned (mkResponse 200 (Malformed msg)) ->
   get_pokemon net s
   = Raise (ResourceError ("Error processing Pokémon data: " ++ msg))) /\
  (net (type_url t) = Returned (mkResponse 200 (Malformed msg)) ->
   get_pokemon_by_type v net t
   = Raise (ResourceError ("Error processing type data: " ++ msg))).
Proof.
  split; intros H.
  - unfold get_pokemon, client_get. rewrite H. reflexivity.
  - unfold get_pokemon_by_type, client_get. rewrite H. reflexivity.
Qed.

(** ** Payloads of the wrong type *)

(** C1, at the failing input.  A 200 reply whose payload decodes to a JSON
    array makes both handlers raise a [TypeError], for which neither has an
    [except] clause: it leaves the handler as it is, not as a resource
    error.  The same happens with a [null] name ([AttributeError]). *)
Theorem wrong_type_payload_escapes (v : bool) (s t : string) :
  get_pokemon (serving 200 (JList [])) s = Raise TypeError
  /\ get_pokemon_by_type v (serving 200 (JList [])) t = Raise TypeError
  /\ get_pokemon (serving 200 (JObj [("id", JInt 1); ("name", JNull)])) s
     = Raise AttributeError.
Proof. repeat split. Qed.

(** ** Dependence on the upstream *)







(** ** Start-up of the client *)

Lemma getenv_putenv_other (env : Client.environ) (k k' v : string) :
  String.eqb k k' = false ->
  Client.getenv (Client.putenv env k' v) k = Client.getenv env k.
Proof.
  intros Hk. induction env as [|[k0 v0] env IH]; simpl.
  - rewrite Hk. reflexivity.
  - destruct (String.eqb k' k0) eqn:E0; simpl.
    + apply String.eqb_eq in E0. subst k0. rewrite Hk. reflexivity.
    + destruct (String.eqb k k0); [reflexivity | exact IH].
Qed.

Lemma getenv_load_dotenv_absent (dotenv env : Client.environ) (k : string) :
  Client.getenv dotenv k = None ->
  Client.getenv env k = None ->
  Client.getenv (Client.load_dotenv dotenv env) k = None.
Proof.
  unfold Client.load_dotenv. revert env.
  induction dotenv as [|[k' v'] dotenv IH]; simpl; intros env Hd He.
  - exact He.
  - destruct (String.eqb k k') eqn:Ek; [discriminate|].
    apply IH; [exact Hd|].
    destruct (Client.getenv env k'); [exact He|].
    rewrite (getenv_putenv_other env k k' v' Ek). exact He.
Qed.

(** C7, as the code has it.  When GROQ_API_KEY is neither in the
    environment of the process nor among the bindings [load_dotenv] reads
    from the [.env] file, the client stops with the [TypeError] of the
    assignment to [os.environ] before anything else happens: no model is
    constructed, no server is launched, no session step is taken. *)
Theorem missing_credential_is_fatal
  (dotenv env : Client.environ) (w : Client.world) :
  Client.getenv env "GROQ_API_KEY" = None ->
  Client.getenv dotenv "GROQ_API_KEY" = None ->
  Client.client dotenv env w = ([], Client.Crashed Client.EnvTypeError).
Proof.
  intros He Hd. unfold Client.client.
  rewrite (getenv_load_dotenv_absent dotenv env _ Hd He). reflexivity.
Qed.

Lemma missing_credential_is_fatal_witness :
  Client.client [("DEBUG", "1")] [("PATH", "/usr/bin")] good_world
  = ([], Client.Crashed Client.EnvTypeError).
Proof.
  apply missing_credential_is_fatal; reflexivity.
Defined.

(** C7, as stated, fails: with the variable absent from the environment
    of the process but bound in the [.env] file, [load_dotenv] sets it and
    the client launches the server and runs to the end. *)
Lemma credential_from_dotenv_proceeds :
  Client.getenv [("PATH", "/usr/bin")] "GROQ_API_KEY" = None
  /\ Client.client [("GROQ_API_KEY", "gsk")] [("PATH", "/usr/bin")] good_world
     = ([Client.LlmConstructed; Client.ServerLaunched; Client.SessionOpened;
         Client.SessionInitialized; Client.Printed "session initialized";
         Client.ToolsListed; Client.Printed "tools: [add, multiply]";
         Client.AgentCreated; Client.AgentInvoked; Client.Printed "60"],
        Client.Finished).
Proof. split; reflexivity. Qed.

(** ** Successful type look-ups *)

Lemma summary_of_response_Ok (v : bool) (t : string) (data : json) (r : TypeSummary.t) :
  summary_of_response v t (mkResponse 200 (Parsed data)) = Ok r ->
  exists ps pl items,
    getitem data "pokemon" = Ok ps /\
    slice10 v ps = Ok pl /\
    getitem data "id" = Ok (TypeSummary.type_id r) /\
    py_len ps = Ok (TypeSummary.pokemon_count r) /\
    py_len pl = Ok (TypeSummary.showing r) /\
    py_iter pl = Ok items /\
    mapM type_entry items = Ok (TypeSummary.pokemon r) /\
    TypeSummary.type r = capitalize t.
Proof.
  unfold summary_of_response.
  cbn [status_code Z.eqb Pos.eqb negb response_json content].
  intros H.
  apply bind_Ok in H. destruct H as (data' & Ed & H). injection Ed as <-.
  apply bind_Ok in H. destruct H as (pl & Epl & H).
  apply bind_Ok in Epl. destruct Epl as (ps & Eps & Epl).
  apply bind_Ok in H. destruct H as (vid & Eid & H).
  apply bind_Ok in H. destruct H as (cnt & Ecnt & H).
  rewrite Eps in Ecnt. cbn [bind] in Ecnt.
  apply bind_Ok in H. destruct H as (sh & Esh & H).
  apply bind_Ok in H. destruct H as (es & Ees & H).
  apply bind_Ok in Ees. destruct Ees as (items & Eit & Ees).
  injection H as <-. cbn.
  exists ps, pl, items. repeat split; assumption.
Qed.

Lemma type_entry_Ok (p : json) (e : TypeEntry.t) :
  type_entry p = Ok e ->
  exists n, getitem2 p "pokemon" "name" = Ok (JStr n)
            /\ e = {| TypeEntry.name := capitalize n;
                      TypeEntry.uri := "poke://pokemon/" ++ n |}.
Proof.
  unfold type_entry. intros H.
  apply bind_Ok in H. destruct H as (x & Ex & H).
  destruct x; try discriminate.
  injection H as <-. eexists. split; [exact Ex | reflexivity].
Qed.

(** C2.  A successful type look-up on a payload whose member list has [n]
    entries reports [pokemon_count = n] and [showing = min 10 n]; its
    [pokemon] field has [showing] entries, and they are made, in upstream
    order, from the first [min 10 n] members: the capitalized name and the
    locator of each. *)
Theorem type_lookup_first_ten
  (v : bool) (net : upstream) (t : string) (data : json) (members : list json)
  (r : TypeSummary.t) :
  net (type_url t) = Returned (mkResponse 200 (Parsed data)) ->
  getitem data "pokemon" = Ok (JList members) ->
  get_pokemon_by_type v net t = Ok r ->
  TypeSummary.pokemon_count r = List.length members /\
  TypeSummary.showing r = Nat.min 10 (List.length members) /\
  List.length (TypeSummary.pokemon r) = TypeSummary.showing r /\
  Forall2 (fun p e =>
             exists n, getitem2 p "pokemon" "name" = Ok (JStr n)
                       /\ e = {| TypeEntry.name := capitalize n;
                                 TypeEntry.uri := "poke://pokemon/" ++ n |})
          (firstn 10 members) (TypeSummary.pokemon r).
Proof.
  intros Hn Hm H. unfold get_pokemon_by_type, client_get in H. rewrite Hn in H.
  apply try_except_Ok in H. cbn [bind] in H.
  apply summary_of_response_Ok in H.
  destruct H as (ps & pl & items & Eps & Epl & _ & Ecnt & Esh & Eit & Ees & _).
  rewrite Hm in Eps. apply Ok_inj in Eps. subst ps.
  cbn [slice10] in Epl. apply Ok_inj in Epl. subst pl.
  cbn [py_len] in Ecnt, Esh. apply Ok_inj in Ecnt. apply Ok_inj in Esh.
  cbn [py_iter] in Eit. apply Ok_inj in Eit. subst items.
  apply mapM_Forall2 in Ees.
  assert (Hlen : List.length (TypeSummary.pokemon r)
                 = List.length (firstn 10 members)).
  { symmetry. exact (Forall2_length Ees). }
  rewrite <- Ecnt, <- Esh. rewrite length_firstn in *.
  repeat split; try reflexivity; try exact Hlen.
  eapply Forall2_impl; [|exact Ees].
  intros p e Hpe. apply type_entry_Ok. exact Hpe.
Qed.

Lemma type_lookup_first_ten_witness :
  exists r, get_pokemon_by_type true (serving 200 fire_payload) "fire" = Ok r
            /\ TypeSummary.pokemon_count r = 12%nat
            /\ TypeSummary.showing r = 10%nat
            /\ List.length (TypeSummary.pokemon r) = 10%nat.
Proof.
  eexists. split; [reflexivity|].
  destruct (type_lookup_first_ten true (serving 200 fire_payload) "fire"
              fire_payload fire_members _ eq_refl eq_refl eq_refl)
    as (Hc & Hs & Hl & _).
  split; [exact Hc|]. split; [exact Hs|]. rewrite Hl. exact Hs.
Defined.

(** ** Shape of a Pokemon record *)

Lemma Qeq_bool_sym (p q : Q) : Qeq_bool p q = Qeq_bool q p.
Proof.
  destruct (Qeq_bool p q) eqn:E1, (Qeq_bool q p) eqn:E2; try reflexivity.
  - apply Qeq_bool_iff in E1. symmetry in E1. apply Qeq_bool_iff in E1. congruence.
  - apply Qeq_bool_iff in E2. symmetry in E2. apply Qeq_bool_iff in E2. congruence.
Qed.

Lemma Qeq_bool_trans (p q r : Q) :
  Qeq_bool p q = true -> Qeq_bool q r = true -> Qeq_bool p r = true.
Proof.
  intros H1 H2. apply Qeq_bool_iff in H1. apply Qeq_bool_iff in H2.
  apply Qeq_bool_iff. rewrite H1. exact H2.
Qed.

Lemma key_eqb_sym (a b : json) : key_eqb a b = key_eqb b a.
Proof.
  destruct a, b; simpl; try reflexivity;
    try apply Qeq_bool_sym; apply String.eqb_sym.
Qed.

Lemma key_eqb_trans (a b c : json) :
  key_eqb a b = true -> key_eqb b c = true -> key_eqb a c = true.
Proof.
  destruct a, b; simpl; try discriminate; destruct c; simpl;
    try discriminate; try reflexivity;
    try (intros H1 H2; eapply Qeq_bool_trans; eassumption).
  intros H1 H2. apply String.eqb_eq in H1. apply String.eqb_eq in H2.
  apply String.eqb_eq. congruence.
Qed.

(** Reading a [dict] after an assignment. *)
Lemma dict_get_set (d : list (json * json)) (k v q : json) :
  dict_get (dict_set d k v) q = if key_eqb k q then Some v else dict_get d q.
Proof.
  induction d as [|[k' v'] d IH]; simpl; [reflexivity|].
  destruct (key_eqb k' k) eqn:Ek; simpl.
  - destruct (key_eqb k q) eqn:Eq.
    + rewrite (key_eqb_trans k' k q Ek Eq). reflexivity.
    + destruct (key_eqb k' q) eqn:Eq'; [|reflexivity].
      rewrite key_eqb_sym in Ek.
      rewrite (key_eqb_trans k k' q Ek Eq') in Eq. discriminate.
  - rewrite IH. destruct (key_eqb k' q) eqn:Eq'; [|reflexivity].
    destruct (key_eqb k q) eqn:Eq; [|reflexivity].
    rewrite key_eqb_sym in Eq.
    rewrite (key_eqb_trans k' q k Eq' Eq) in Ek. discriminate.
Qed.

(** The comprehension lets the last entry of a name win. *)
Lemma stats_dict_lookup (items : list json) :
  forall (acc d : list (json * json)),
    stats_dict items acc = Ok d ->
    forall q, dict_get d q = match stat_lookup items q with
                             | Some v => Some v
                             | None => dict_get acc q
                             end.
Proof.
  induction items as [|stat rest IH]; simpl; intros acc d H q.
  - apply Ok_inj in H. subst d. reflexivity.
  - apply bind_Ok in H. destruct H as (k & Ek & H).
    apply bind_Ok in H. destruct H as (v & Ev & H).
    destruct (hashable k); [|discriminate].
    rewrite (IH _ _ H q). rewrite Ek, Ev.
    destruct (stat_lookup rest q); [reflexivity|].
    rewrite dict_get_set. destruct (key_eqb k q); reflexivity.
Qed.

(** C5, as the code has it.  In the record of a successful look-up the
    [types] and [abilities] fields are sequences: the name of each
    upstream entry, in upstream order, repetitions kept.  [base_stats]
    maps a stat name to the [base_stat] of the last upstream entry with
    that name, and [sprite] is the upstream [front_default] value as it
    is.  No field is checked for the type of its elements. *)
Theorem pokemon_record_fields
  (net : upstream) (s : string) (data : json) (r : Pokemon.t) :
  net (pokemon_url s) = Returned (mkResponse 200 (Parsed data)) ->
  get_pokemon net s = Ok r ->
  exists ts ab ss,
    field_items data "types" = Ok ts /\
    Forall2 (fun t n => getitem2 t "type" "name" = Ok n) ts (Pokemon.types r) /\
    field_items data "abilities" = Ok ab /\
    Forall2 (fun a n => getitem2 a "ability" "name" = Ok n) ab (Pokemon.abilities r) /\
    field_items data "stats" = Ok ss /\
    (forall q, dict_get (Pokemon.base_stats r) q = stat_lookup ss q) /\
    getitem2 data "sprites" "front_default" = Ok (Pokemon.sprite r).
Proof.
  intros Hn H. apply (get_pokemon_Ok net s data r Hn) in H.
  apply pokemon_of_response_Ok in H.
  destruct H as (_ & _ & _ & ts & ab & ss & _ & _ & _ & _ & _ & _ & _
                 & Ets & Etys & Eab & Eabs & Ess & Est & Esp & _).
  exists ts, ab, ss. unfold field_items.
  repeat split; try assumption.
  - apply mapM_Forall2. exact Etys.
  - apply mapM_Forall2. exact Eabs.
  - intros q. rewrite (stats_dict_lookup ss [] _ Est q).
    destruct (stat_lookup ss q); reflexivity.
Qed.

Lemma pokemon_record_fields_witness :
  exists r, get_pokemon (serving 200 bulbasaur) "1" = Ok r
            /\ Pokemon.types r = [JStr "grass"; JStr "poison"]
            /\ dict_get (Pokemon.base_stats r) (JStr "attack") = Some (JInt 49)
            /\ Pokemon.sprite r = JStr "https://img.example/1.png".
Proof.
  eexists. split; [reflexivity|].
  destruct (pokemon_record_fields (serving 200 bulbasaur) "1" bulbasaur _
              eq_refl eq_refl)
    as (ts & ab & ss & Ets & Ft & _ & _ & Ess & Hs & Esp).
  split; [reflexivity|].
  split; [|reflexivity].
  apply Ok_inj in Ess. subst ss. exact (Hs (JStr "attack")).
Defined.

(** C5, as stated, fails: the [types] field keeps a type the upstream
    lists twice, so it is not a set. *)
Lemma types_keep_duplicates :
  exists r,
    get_pokemon (serving 200 (pokemon_payload "bulbasaur" 7 69 ["grass"; "grass"])) "1"
    = Ok r
    /\ Pokemon.types r = [JStr "grass"; JStr "grass"]
    /\ ~ record_shape r.
Proof.
  eexists. split; [reflexivity|]. split; [reflexivity|].
  intros ((_ & Hnd) & _). cbn in Hnd.
  inversion Hnd as [|x l Hin _]. apply Hin. left. reflexivity.
Qed.

(** * Further properties of the handlers *)

(** ** What can leave a handler *)

Lemma bind_Raise {A B : Type} (m : result A) (k : A -> result B) (e : exn) :
  bind m k = Raise e -> m = Raise e \/ exists a, m = Ok a /\ k a = Raise e.
Proof.
  destruct m as [a|e']; simpl; intros H.
  - right. exists a. split; [reflexivity | exact H].
  - left. injection H as ->. reflexivity.
Qed.


(** A handler returns a value only for a 200 reply with a decoded body. *)
Lemma get_pokemon_Ok_reply (net : upstream) (s : string) (r : Pokemon.t) :
  get_pokemon net s = Ok r ->
  exists data, net (pokemon_url s) = Returned (mkResponse 200 (Parsed data))
               /\ pokemon_of_response s (mkResponse 200 (Parsed data)) = Ok r.
Proof.
  intros H. unfold get_pokemon, client_get in H. apply try_except_Ok in H.
  destruct (net (pokemon_url s)) as [msg|resp|cls] eqn:En;
    [discriminate| |discriminate].
  cbn [bind] in H. destruct resp as [st c].
  unfold pokemon_of_response in H. cbn [status_code] in H.
  destruct (st =? 404) eqn:E4; [discriminate|].
  destruct (Z.eqb_spec st 200) as [->|_]; [|discriminate].
  destruct c as [msg|data|cls]; [discriminate| |discriminate].
  exists data. split; [reflexivity|].
  unfold pokemon_of_response. exact H.
Qed.

Lemma get_pokemon_by_type_Ok_reply
  (v : bool) (net : upstream) (t : string) (r : TypeSummary.t) :
  get_pokemon_by_type v net t = Ok r ->
  exists data, net (type_url t) = Returned (mkResponse 200 (Parsed data))
               /\ summary_of_response v t (mkResponse 200 (Parsed data)) = Ok r.
Proof.
  intros H. unfold get_pokemon_by_type, client_get in H. apply try_except_Ok in H.
  destruct (net (type_url t)) as [msg|resp|cls] eqn:En;
    [discriminate| |discriminate].
  cbn [bind] in H. destruct resp as [st c].
  unfold summary_of_response in H. cbn [status_code] in H.
  destruct (st =? 404) eqn:E4; [discriminate|].
  destruct (Z.eqb_spec st 200) as [->|_]; [|discriminate].
  destruct c as [msg|data|cls]; [discriminate| |discriminate].
  exists data. split; [reflexivity|].
  unfold summary_of_response. exact H.
Qed.

(** X1.  A look-up returns a value only when the upstream answered 200
    with a body that decodes to a JSON object: a record for [get_pokemon],
    a summary for [get_pokemon_by_type]. *)
Theorem value_only_from_object
  (v : bool) (net : upstream) (s t : string) :
  (forall r, get_pokemon net s = Ok r ->
     exists kv, net (pokemon_url s) = Returned (mkResponse 200 (Parsed (JObj kv)))) /\
  (forall r, get_pokemon_by_type v net t = Ok r ->
     exists kv, net (type_url t) = Returned (mkResponse 200 (Parsed (JObj kv)))).
Proof.
  split; intros r H.
  - apply get_pokemon_Ok_reply in H. destruct H as (data & En & H).
    apply pokemon_of_response_Ok in H.
    destruct H as (_ & _ & _ & _ & _ & _ & Eid & _).
    destruct data; try discriminate. eexists. exact En.
  - apply get_pokemon_by_type_Ok_reply in H. destruct H as (data & En & H).
    apply summary_of_response_Ok in H.
    destruct H as (_ & _ & _ & _ & _ & Eid & _).
    destruct data; try discriminate. eexists. exact En.
Qed.

Lemma value_only_from_object_witness :
  exists kv, serving 200 bulbasaur (pokemon_url "1")
             = Returned (mkResponse 200 (Parsed (JObj kv))).
Proof.
  destruct (value_only_from_object true (serving 200 bulbasaur) "1" "fire") as [H _].
  eapply H. reflexivity.
Defined.

(** ** Exceptions of the payload expressions *)

Lemma getitem_Raise (d : json) (k : string) (e : exn) :
  getitem d k = Raise e -> lookup_exn e.
Proof.
  destruct d; simpl; try (intros H; injection H as <-; exact I).
  destruct (assoc k kv); [discriminate|].
  intros H. injection H as <-. exact I.
Qed.




Lemma py_iter_Raise (x : json) (e : exn) : py_iter x = Raise e -> lookup_exn e.
Proof. destruct x; simpl; try discriminate; intros H; injection H as <-; exact I. Qed.




Lemma field_items_Raise (data : json) (field : string) (e : exn) :
  field_items data field = Raise e -> lookup_exn e.
Proof.
  unfold field_items. intros H. apply bind_Raise in H.
  destruct H as [H|(x & _ & H)]; [eapply getitem_Raise | eapply py_iter_Raise]; exact H.
Qed.






(** ** Every way a look-up fails *)





(** ** Payloads on which a look-up succeeds *)

Lemma mapM_of_Forall2 {A B : Type} (f : A -> result B) (l : list A) (l' : list B) :
  Forall2 (fun a b => f a = Ok b) l l' -> mapM f l = Ok l'.
Proof.
  induction 1 as [|a b l l' Hab _ IH]; simpl; [reflexivity|].
  rewrite Hab. cbn [bind]. rewrite IH. reflexivity.
Qed.

Lemma stats_dict_from (items : list json) (kvs : list (json * json)) :
  Forall2 stat_gives items kvs ->
  forall acc, stats_dict items acc = Ok (dict_from acc kvs).
Proof.
  induction 1 as [|stat kv rest kvs (Ek & Hk & Ex) _ IH]; intros acc; simpl.
  - reflexivity.
  - rewrite Ek, Ex. cbn [bind]. rewrite Hk. apply IH.
Qed.

Lemma true_div10_number (x : json) (q : Q) :
  as_number x = Some q ->
  (forall z, x = JInt z -> float_overflow z = false) ->
  true_div10 x = Ok (q / 10)%Q.
Proof.
  destruct x; simpl; try discriminate; intros H Hz; injection H as <-;
    try reflexivity.
  rewrite (Hz z eq_refl). reflexivity.
Qed.

(** X4.  [get_pokemon] returns a record whenever the upstream answers 200
    with an object that has an id, a string name, a numeric height and
    weight (an integer one not beyond binary64), iterable types and
    abilities whose items carry a name, iterable stats whose items carry a
    hashable stat name and a base stat, and a front sprite.  The record
    holds these values: the id, the name capitalized, the height and
    weight divided by 10, the names of the types and of the abilities,
    the [dict] built by assigning each stat name its base stat in upstream
    order, the sprite, and the URL that was fetched. *)
Theorem get_pokemon_succeeds
  (net : upstream) (s : string) (data i hv wv sp : json) (n : string) (h w : Q)
  (ts ab ss tys abs : list json) (kvs : list (json * json)) :
  net (pokemon_url s) = Returned (mkResponse 200 (Parsed data)) ->
  getitem data "id" = Ok i ->
  getitem data "name" = Ok (JStr n) ->
  getitem data "height" = Ok hv -> as_number hv = Some h ->
  (forall z, hv = JInt z -> float_overflow z = false) ->
  getitem data "weight" = Ok wv -> as_number wv = Some w ->
  (forall z, wv = JInt z -> float_overflow z = false) ->
  field_items data "types" = Ok ts ->
  Forall2 (fun t x => getitem2 t "type" "name" = Ok x) ts tys ->
  field_items data "abilities" = Ok ab ->
  Forall2 (fun a x => getitem2 a "ability" "name" = Ok x) ab abs ->
  field_items data "stats" = Ok ss ->
  Forall2 stat_gives ss kvs ->
  getitem2 data "sprites" "front_default" = Ok sp ->
  get_pokemon net s =
  Ok {| Pokemon.id := i;
        Pokemon.name := capitalize n;
        Pokemon.height := (h / 10)%Q;
        Pokemon.weight := (w / 10)%Q;
        Pokemon.types := tys;
        Pokemon.abilities := abs;
        Pokemon.base_stats := dict_from [] kvs;
        Pokemon.sprite := sp;
        Pokemon.api_url := pokemon_url s |}.
Proof.
  intros Hn Ei En Eh Hh Oh Ew Hw Ow Ets Ftys Eab Fabs Ess Fss Esp.
  rewrite (get_pokemon_of_response net s _ Hn).
  unfold pokemon_of_response.
  cbn [status_code Z.eqb Pos.eqb negb response_json content bind].
  rewrite Ei, En, Eh. cbn [bind capitalize_method].
  rewrite (true_div10_number hv h Hh Oh), Ew. cbn [bind].
  rewrite (true_div10_number wv w Hw Ow). cbn [bind].
  unfold field_items in Ets, Eab, Ess.
  apply bind_Ok in Ets. destruct Ets as (tv & Etv & Ets).
  apply bind_Ok in Eab. destruct Eab as (av & Eav & Eab).
  apply bind_Ok in Ess. destruct Ess as (sv & Esv & Ess).
  rewrite Etv. cbn [bind]. rewrite Ets. cbn [bind].
  rewrite (mapM_of_Forall2 _ ts tys Ftys). cbn [bind].
  rewrite Eav. cbn [bind]. rewrite Eab. cbn [bind].
  rewrite (mapM_of_Forall2 _ ab abs Fabs). cbn [bind].
  rewrite Esv. cbn [bind]. rewrite Ess. cbn [bind].
  rewrite (stats_dict_from ss kvs Fss []). cbn [bind]. rewrite Esp. reflexivity.
Qed.

Lemma get_pokemon_succeeds_witness :
  get_pokemon (serving 200 bulbasaur) "1" =
  Ok {| Pokemon.id := JInt 1;
        Pokemon.name := "Bulbasaur";
        Pokemon.height := (inject_Z 7 / 10)%Q;
        Pokemon.weight := (inject_Z 69 / 10)%Q;
        Pokemon.types := [JStr "grass"; JStr "poison"];
        Pokemon.abilities := [JStr "overgrow"; JStr "chlorophyll"];
        Pokemon.base_stats := [(JStr "hp", JInt 45); (JStr "attack", JInt 49)];
        Pokemon.sprite := JStr "https://img.example/1.png";
        Pokemon.api_url := "https://pokeapi.co/api/v2/pokemon/1" |}.
Proof.
  apply (get_pokemon_succeeds (serving 200 bulbasaur) "1" bulbasaur
           (JInt 1) (JInt 7) (JInt 69) (JStr "https://img.example/1.png")
           "bulbasaur" (inject_Z 7) (inject_Z 69)
           [named "type" "grass"; named "type" "poison"]
           [named "ability" "overgrow"; named "ability" "chlorophyll"]
           [stat_entry "hp" 45; stat_entry "attack" 49]
           [JStr "grass"; JStr "poison"] [JStr "overgrow"; JStr "chlorophyll"]
           [(JStr "hp", JInt 45); (JStr "attack", JInt 49)]);
    try reflexivity.
  - intros z Hz. injection Hz as <-. reflexivity.
  - intros z Hz. injection Hz as <-. reflexivity.
  - repeat constructor.
  - repeat constructor.
  - repeat constructor.
Defined.

Lemma mapM_type_entry (ps : list json) (names : list string) :
  Forall2 (fun p n => getitem2 p "pokemon" "name" = Ok (JStr n)) ps names ->
  mapM type_entry ps = Ok (map entry_of_name names).
Proof.
  induction 1 as [|p n ps names Hp _ IH]; simpl; [reflexivity|].
  unfold type_entry at 1. rewrite Hp. cbn [bind]. rewrite IH. reflexivity.
Qed.

(** X5.  [get_pokemon_by_type] returns a summary whenever the upstream
    answers 200 with an object that has an id and a member list whose
    first ten members each carry a string name.  The summary echoes the
    requested type name, capitalized, not a name from the payload; it
    passes the id through, counts all members and lists the first ten. *)
Theorem get_pokemon_by_type_succeeds
  (v : bool) (net : upstream) (t : string) (data i : json)
  (members : list json) (names : list string) :
  net (type_url t) = Returned (mkResponse 200 (Parsed data)) ->
  getitem data "id" = Ok i ->
  getitem data "pokemon" = Ok (JList members) ->
  Forall2 (fun p n => getitem2 p "pokemon" "name" = Ok (JStr n))
          (firstn 10 members) names ->
  get_pokemon_by_type v net t =
  Ok {| TypeSummary.type := capitalize t;
        TypeSummary.type_id := i;
        TypeSummary.pokemon_count := List.length members;
        TypeSummary.showing := Nat.min 10 (List.length members);
        TypeSummary.pokemon := map entry_of_name names |}.
Proof.
  intros Hn Ei Em Hnames.
  unfold get_pokemon_by_type, client_get. rewrite Hn. cbn [bind].
  unfold summary_of_response.
  cbn [status_code Z.eqb Pos.eqb negb response_json content bind].
  rewrite Em. cbn [bind slice10]. rewrite Ei. cbn [bind py_len py_iter].
  rewrite (mapM_type_entry _ _ Hnames). cbn [bind try_except].
  rewrite length_firstn. reflexivity.
Qed.

Lemma get_pokemon_by_type_succeeds_witness :
  get_pokemon_by_type false (serving 200 ragged_payload) "FIRE" =
  Ok {| TypeSummary.type := "Fire";
        TypeSummary.type_id := JInt 10;
        TypeSummary.pokemon_count := 12;
        TypeSummary.showing := 10;
        TypeSummary.pokemon :=
          map entry_of_name
              ["charmander"; "charmeleon"; "charizard"; "vulpix"; "ninetales";
               "growlithe"; "arcanine"; "ponyta"; "rapidash"; "magmar"] |}.
Proof.
  apply (get_pokemon_by_type_succeeds false (serving 200 ragged_payload) "FIRE"
           ragged_payload (JInt 10)
           (firstn 10 fire_members ++ [JNull; JInt 3]));
    try reflexivity.
  repeat constructor.
Defined.

(** X6.  The members of the upstream list after the tenth are counted but
    never looked at: two 200 replies with the same id, as many members and
    the same first ten members get the same answer, a value or an
    exception, whatever the other members are. *)
Theorem members_after_tenth_ignored
  (v : bool) (net1 net2 : upstream) (t : string) (d1 d2 : json)
  (m1 m2 : list json) :
  net1 (type_url t) = Returned (mkResponse 200 (Parsed d1)) ->
  net2 (type_url t) = Returned (mkResponse 200 (Parsed d2)) ->
  getitem d1 "id" = getitem d2 "id" ->
  getitem d1 "pokemon" = Ok (JList m1) ->
  getitem d2 "pokemon" = Ok (JList m2) ->
  firstn 10 m1 = firstn 10 m2 ->
  List.length m1 = List.length m2 ->
  get_pokemon_by_type v net1 t = get_pokemon_by_type v net2 t.
Proof.
  intros H1 H2 Eid E1 E2 Ef El.
  unfold get_pokemon_by_type, client_get. rewrite H1, H2. cbn [bind].
  unfold summary_of_response.
  cbn [status_code Z.eqb Pos.eqb negb response_json content bind].
  rewrite E1, E2, Eid. cbn [bind slice10 py_len py_iter].
  rewrite Ef, El. reflexivity.
Qed.

Lemma members_after_tenth_ignored_witness :
  get_pokemon_by_type true (serving 200 fire_payload) "fire"
  = get_pokemon_by_type true (serving 200 ragged_payload) "fire".
Proof.
  apply (members_after_tenth_ignored true (serving 200 fire_payload)
           (serving 200 ragged_payload) "fire" fire_payload ragged_payload
           fire_members (firstn 10 fire_members ++ [JNull; JInt 3]));
    reflexivity.
Defined.

Lemma length_take_chars (n : nat) (s : string) :
  String.length (take_chars n s) = Nat.min n (String.length s).
Proof.
  revert s. induction n as [|n IH]; intros s; [reflexivity|].
  destruct s as [|c s]; simpl; [reflexivity|]. rewrite IH. reflexivity.
Qed.

Lemma length_chars (s : string) : List.length (chars s) = String.length s.
Proof. induction s as [|c s IH]; simpl; [reflexivity|]. rewrite IH. reflexivity. Qed.

(** X7.  Every summary that [get_pokemon_by_type] returns, whatever the
    payload was, shows the lesser of ten and the count, holds as many
    entries as it shows, and never more than ten. *)
Theorem summary_is_capped
  (v : bool) (net : upstream) (t : string) (r : TypeSummary.t) :
  get_pokemon_by_type v net t = Ok r ->
  TypeSummary.showing r = Nat.min 10 (TypeSummary.pokemon_count r) /\
  List.length (TypeSummary.pokemon r) = TypeSummary.showing r /\
  (TypeSummary.showing r <= 10)%nat.
Proof.
  intros H. apply get_pokemon_by_type_Ok_reply in H. destruct H as (data & _ & H).
  apply summary_of_response_Ok in H.
  destruct H as (ps & pl & items & _ & Epl & _ & Ecnt & Esh & Eit & Ees & _).
  apply mapM_Forall2 in Ees. apply Forall2_length in Ees.
  assert (Hcap : TypeSummary.showing r = Nat.min 10 (TypeSummary.pokemon_count r)
                 /\ List.length items = TypeSummary.showing r).
  { destruct ps; try discriminate.
    - cbn [slice10] in Epl. apply Ok_inj in Epl. subst pl.
      cbn [py_len] in Ecnt, Esh. apply Ok_inj in Ecnt. apply Ok_inj in Esh.
      cbn [py_iter] in Eit. apply Ok_inj in Eit. subst items.
      rewrite <- Ecnt, <- Esh, length_chars, length_take_chars. split; reflexivity.
    - cbn [slice10] in Epl. apply Ok_inj in Epl. subst pl.
      cbn [py_len] in Ecnt, Esh. apply Ok_inj in Ecnt. apply Ok_inj in Esh.
      cbn [py_iter] in Eit. apply Ok_inj in Eit. subst items.
      rewrite <- Ecnt, <- Esh, length_firstn. split; reflexivity.
    - cbn [slice10] in Epl. destruct v; discriminate. }
  destruct Hcap as [Hmin Hlen]. rewrite <- Ees, Hlen.
  split; [exact Hmin|]. split; [reflexivity|].
  rewrite Hmin. apply Nat.le_min_l.
Qed.

Lemma summary_is_capped_witness :
  exists r, get_pokemon_by_type true (serving 200 fire_payload) "fire" = Ok r
            /\ TypeSummary.showing r = Nat.min 10 (TypeSummary.pokemon_count r)
            /\ (TypeSummary.showing r <= 10)%nat.
Proof.
  eexists. split; [reflexivity|].
  destruct (summary_is_capped true (serving 200 fire_payload) "fire" _ eq_refl)
    as (Hmin & _ & Hle).
  split; [exact Hmin | exact Hle].
Defined.

(** ** Numbers beyond binary64 *)

(** X8.  An integer height of magnitude [10 * 2^1024] or more makes the
    division raise [OverflowError], which no [except] clause catches:
    with an id and a string name before it in the payload, the look-up
    ends in that exception and not in a resource error. *)
Theorem giant_height_escapes
  (net : upstream) (s : string) (data i : json) (n : string) (z : Z) :
  net (pokemon_url s) = Returned (mkResponse 200 (Parsed data)) ->
  getitem data "id" = Ok i ->
  getitem data "name" = Ok (JStr n) ->
  getitem data "height" = Ok (JInt z) ->
  10 * 2 ^ 1024 <= Z.abs z ->
  get_pokemon net s = Raise OverflowError.
Proof.
  intros Hn Ei En Eh Hz.
  assert (Ho : float_overflow z = true).
  { unfold float_overflow. apply Z.leb_le.
    eapply Z.le_trans; [|exact Hz]. vm_compute. discriminate. }
  rewrite (get_pokemon_of_response net s _ Hn).
  unfold pokemon_of_response.
  cbn [status_code Z.eqb Pos.eqb negb response_json content bind].
  rewrite Ei, En, Eh. cbn [bind capitalize_method true_div10].
  rewrite Ho. reflexivity.
Qed.

Lemma giant_height_escapes_witness :
  get_pokemon (serving 200 giant) "321" = Raise OverflowError.
Proof.
  apply (giant_height_escapes (serving 200 giant) "321" giant (JInt 1) "wailord"
           (10 ^ 400)); try reflexivity.
  vm_compute. discriminate.
Defined.

(** ** The base stats as a mapping *)

Lemma dict_set_keeps_apart (d : list (json * json)) (k0 k v : json) :
  key_eqb k0 k = false ->
  Forall (fun kv => key_eqb k0 (fst kv) = false) d ->
  Forall (fun kv => key_eqb k0 (fst kv) = false) (dict_set d k v).
Proof.
  intros Hk. induction 1 as [|[k' v'] d Hk' Hd IH]; simpl.
  - constructor; [exact Hk | constructor].
  - destruct (key_eqb k' k); constructor; assumption.
Qed.

Lemma dict_set_distinct (d : list (json * json)) (k v : json) :
  keys_distinct d -> keys_distinct (dict_set d k v).
Proof.
  induction d as [|[k' v'] d IH]; simpl.
  - intros _. split; [constructor | exact I].
  - intros [Hk' Hd]. destruct (key_eqb k' k) eqn:E; simpl.
    + split; assumption.
    + split; [apply dict_set_keeps_apart; assumption | apply IH; exact Hd].
Qed.

Lemma dict_set_length (d : list (json * json)) (k v : json) :
  (List.length (dict_set d k v) <= S (List.length d))%nat.
Proof.
  induction d as [|[k' v'] d IH]; simpl; [lia|].
  destruct (key_eqb k' k); simpl; lia.
Qed.

Lemma stats_dict_distinct (items : list json) :
  forall acc d,
    stats_dict items acc = Ok d ->
    keys_distinct acc ->
    keys_distinct d
    /\ (List.length d <= List.length acc + List.length items)%nat.
Proof.
  induction items as [|stat rest IH]; simpl; intros acc d H Hacc.
  - apply Ok_inj in H. subst d. split; [exact Hacc | lia].
  - apply bind_Ok in H. destruct H as (k & _ & H).
    apply bind_Ok in H. destruct H as (x & _ & H).
    destruct (hashable k); [|discriminate].
    destruct (IH _ _ H (dict_set_distinct acc k x Hacc)) as [Hd Hl].
    split; [exact Hd|].
    pose proof (dict_set_length acc k x). lia.
Qed.

(** X9.  The [base_stats] of a record is a mapping: no two of its keys are
    equal (as Python compares keys), and it has at most as many entries as
    the upstream has stats; stats that share a name collapse into one
    entry. *)
Theorem base_stats_is_mapping (net : upstream) (s : string) (r : Pokemon.t) :
  get_pokemon net s = Ok r ->
  keys_distinct (Pokemon.base_stats r) /\
  exists data ss,
    net (pokemon_url s) = Returned (mkResponse 200 (Parsed data)) /\
    field_items data "stats" = Ok ss /\
    (List.length (Pokemon.base_stats r) <= List.length ss)%nat.
Proof.
  intros H. apply get_pokemon_Ok_reply in H. destruct H as (data & Hn & H).
  apply pokemon_of_response_Ok in H.
  destruct H as (_ & _ & _ & _ & _ & ss & _ & _ & _ & _ & _ & _ & _ & _ & _
                 & _ & _ & Ess & Est & _).
  destruct (stats_dict_distinct ss [] _ Est I) as [Hd Hl].
  split; [exact Hd|].
  exists data, ss. split; [exact Hn|]. split; [exact Ess | exact Hl].
Qed.

Lemma base_stats_is_mapping_witness :
  exists r, get_pokemon (serving 200 bulbasaur) "1" = Ok r
            /\ keys_distinct (Pokemon.base_stats r).
Proof.
  eexists. split; [reflexivity|].
  apply (base_stats_is_mapping (serving 200 bulbasaur) "1"). reflexivity.
Defined.

(** ** The status named by an upstream-error message *)

Lemma show_int_read_back (z : Z) : status_in (show_int z) = Some z.
Proof.
  unfold status_in, show_int. rewrite NilZero.isi.
  - simpl. rewrite DecimalZ.of_to. reflexivity.
  - destruct z; simpl; try discriminate.
    intros H. injection H as H. exact (DecimalPos.Unsigned.to_uint_nonnil p H).
  - destruct z; simpl; try discriminate.
    intros H. injection H as H. exact (DecimalPos.Unsigned.to_uint_nonnil p H).
Qed.

(** X10.  For a status other than 200 and 404 both handlers raise the
    upstream error whose message is "PokeAPI error: HTTP " followed by
    the decimal digits of the status: reading the digits back gives the
    status, so that different statuses give different messages. *)
Theorem status_message_names_status
  (v : bool) (net : upstream) (s t : string) (rp rt : response) :
  net (pokemon_url s) = Returned rp ->
  net (type_url t) = Returned rt ->
  status_code rp <> 200 -> status_code rp <> 404 ->
  status_code rt <> 200 -> status_code rt <> 404 ->
  exists dp dt,
    get_pokemon net s = Raise (ResourceError ("PokeAPI error: HTTP " ++ dp)) /\
    status_in dp = Some (status_code rp) /\
    get_pokemon_by_type v net t = Raise (ResourceError ("PokeAPI error: HTTP " ++ dt)) /\
    status_in dt = Some (status_code rt).
Proof.
  intros Hp Ht P2 P4 T2 T4.
  exists (show_int (status_code rp)), (show_int (status_code rt)).
  apply Z.eqb_neq in P4. apply Z.eqb_neq in T4.
  split; [|split; [apply show_int_read_back|split; [|apply show_int_read_back]]].
  - rewrite (get_pokemon_of_response net s rp Hp).
    rewrite (pokemon_of_response_status s rp P2), P4. reflexivity.
  - unfold get_pokemon_by_type, client_get. rewrite Ht. cbn [bind].
    rewrite (summary_of_response_status v t rt T2), T4. reflexivity.
Qed.

Lemma status_message_names_status_witness :
  exists dp dt,
    get_pokemon (serving 503 JNull) "1"
    = Raise (ResourceError ("PokeAPI error: HTTP " ++ dp)) /\
    status_in dp = Some 503 /\
    get_pokemon_by_type true (serving 503 JNull) "fire"
    = Raise (ResourceError ("PokeAPI error: HTTP " ++ dt)) /\
    status_in dt = Some 503.
Proof.
  apply (status_message_names_status true (serving 503 JNull) "1" "fire"
           (mkResponse 503 (Parsed JNull)) (mkResponse 503 (Parsed JNull)));
    try reflexivity; simpl; lia.
Defined.

(** * Further properties of the client *)

Lemma getenv_putenv_same (env : Client.environ) (k v : string) :
  Client.getenv (Client.putenv env k v) k = Some v.
Proof.
  induction env as [|[k0 v0] env IH]; simpl.
  - rewrite String.eqb_refl. reflexivity.
  - destruct (String.eqb k k0) eqn:E; simpl; rewrite E; [reflexivity | exact IH].
Qed.

Lemma getenv_putenv_keeps (env : Client.environ) (k k' v v' : string) :
  Client.getenv env k = Some v ->
  exists x, Client.getenv (Client.putenv env k' v') k = Some x.
Proof.
  intros H. destruct (String.eqb k k') eqn:E.
  - apply String.eqb_eq in E. subst k'. exists v'. apply getenv_putenv_same.
  - exists v. rewrite (getenv_putenv_other env k k' v' E). exact H.
Qed.

Lemma load_dotenv_keeps (dotenv env : Client.environ) (k v : string) :
  Client.getenv env k = Some v ->
  exists x, Client.getenv (Client.load_dotenv dotenv env) k = Some x.
Proof.
  unfold Client.load_dotenv. revert env v.
  induction dotenv as [|[k' v'] dotenv IH]; simpl; intros env v H.
  - exists v. exact H.
  - destruct (Client.getenv env k'); [exact (IH env v H)|].
    destruct (getenv_putenv_keeps env k k' v v' H) as (x & Hx).
    exact (IH _ x Hx).
Qed.

Lemma load_dotenv_adds (dotenv env : Client.environ) (k v : string) :
  Client.getenv dotenv k = Some v ->
  exists x, Client.getenv (Client.load_dotenv dotenv env) k = Some x.
Proof.
  revert env. induction dotenv as [|[k' v'] dotenv IH]; simpl; intros env H;
    [discriminate|].
  destruct (String.eqb k k') eqn:E.
  - apply String.eqb_eq in E. subst k'.
    change (exists x, Client.getenv
                        (Client.load_dotenv dotenv
                           match Client.getenv env k with
                           | Some _ => env
                           | None => Client.putenv env k v'
                           end) k = Some x).
    destruct (Client.getenv env k) as [y|] eqn:Ey.
    + exact (load_dotenv_keeps dotenv env k y Ey).
    + exact (load_dotenv_keeps dotenv _ k v' (getenv_putenv_same env k v')).
  - exact (IH _ H).
Qed.

Lemma credential_after_load (dotenv env : Client.environ) :
  has_credential dotenv env = true <->
  exists key,
    Client.getenv (Client.load_dotenv dotenv env) "GROQ_API_KEY" = Some key.
Proof.
  unfold has_credential. split.
  - destruct (Client.getenv env "GROQ_API_KEY") as [x|] eqn:Ee.
    + intros _. exact (load_dotenv_keeps dotenv env _ x Ee).
    + destruct (Client.getenv dotenv "GROQ_API_KEY") as [y|] eqn:Ed;
        [|discriminate].
      intros _. exact (load_dotenv_adds dotenv env _ y Ed).
  - intros (key & H).
    destruct (Client.getenv env "GROQ_API_KEY") eqn:Ee; [reflexivity|].
    destruct (Client.getenv dotenv "GROQ_API_KEY") eqn:Ed; [reflexivity|].
    rewrite (getenv_load_dotenv_absent dotenv env _ Ed Ee) in H. discriminate.
Qed.

(** X11.  The client is one straight sequence: whatever fails, the events
    of a run are an initial part of the full script (model, server,
    session, handshake, tool list, agent, invocation, with the three
    prints in their places); no step is skipped, repeated or reordered. *)
Theorem client_events_in_order (dotenv env : Client.environ) (w : Client.world) :
  exists rest,
    (fst (Client.client dotenv env w) ++ rest)%list
    = client_script (or_empty (Client.tools w)) (or_empty (Client.final_answer w)).
Proof.
  unfold Client.client.
  destruct (Client.environ_setitem _ _ _) as [env2|c]; [|eexists; reflexivity].
  destruct w as [l la se ini ts ag fa].
  destruct l, la, se, ini, ts as [ts|], ag, fa as [a|]; cbn; eexists; reflexivity.
Qed.

(** X12.  The client runs to the end exactly when GROQ_API_KEY is bound in
    the environment or in the [.env] file and every library call succeeds;
    the events are then the full script, ending with the print of the
    agent's answer. *)
Theorem client_finishes_exactly_when
  (dotenv env : Client.environ) (w : Client.world) :
  (has_credential dotenv env = true -> all_ok w = true ->
   Client.client dotenv env w
   = (client_script (or_empty (Client.tools w)) (or_empty (Client.final_answer w)),
      Client.Finished)) /\
  (forall tr, Client.client dotenv env w = (tr, Client.Finished) ->
              has_credential dotenv env = true /\ all_ok w = true).
Proof.
  split.
  - intros Hc Hw. apply credential_after_load in Hc. destruct Hc as (key & Hk).
    unfold Client.client. rewrite Hk. cbn [Client.environ_setitem].
    destruct w as [l la se ini ts ag fa]. unfold all_ok in Hw. cbn in Hw.
    destruct l, la, se, ini, ts as [ts|], ag, fa as [a|]; try discriminate Hw.
    reflexivity.
  - intros tr H. unfold Client.client in H.
    destruct (Client.getenv (Client.load_dotenv dotenv env) "GROQ_API_KEY")
      as [key|] eqn:Hk; [|discriminate].
    split; [apply credential_after_load; exists key; exact Hk|].
    cbn [Client.environ_setitem] in H.
    destruct w as [l la se ini ts ag fa].
    destruct l, la, se, ini, ts as [ts|], ag, fa as [a|]; cbn in H;
      try discriminate H; reflexivity.
Qed.

Lemma client_finishes_exactly_when_witness :
  Client.client [("GROQ_API_KEY", "gsk")] [("PATH", "/usr/bin")] good_world
  = (client_script "[add, multiply]" "60", Client.Finished).
Proof.
  destruct (client_finishes_exactly_when [("GROQ_API_KEY", "gsk")]
              [("PATH", "/usr/bin")] good_world) as [H _].
  apply H; reflexivity.
Defined.

(** * Missing keys at the top of a payload *)

(** X13.  A 200 payload that is an object without the key a handler reads
    first ends in the processing error naming that key: "id" for
    [get_pokemon], "pokemon" for [get_pokemon_by_type].  With a member
    list but no "id", [get_pokemon_by_type] names "id", and it does so
    before it looks at any member. *)
Theorem first_missing_key_named
  (v : bool) (net : upstream) (s t : string) (kp kt : list (string * json)) :
  net (pokemon_url s) = Returned (mkResponse 200 (Parsed (JObj kp))) ->
  net (type_url t) = Returned (mkResponse 200 (Parsed (JObj kt))) ->
  (assoc "id" kp = None ->
   get_pokemon net s = Raise (ResourceError "Error processing Pokémon data: 'id'")) /\
  (assoc "pokemon" kt = None ->
   get_pokemon_by_type v net t
   = Raise (ResourceError "Error processing type data: 'pokemon'")) /\
  (forall members, assoc "pokemon" kt = Some (JList members) ->
   assoc "id" kt = None ->
   get_pokemon_by_type v net t
   = Raise (ResourceError "Error processing type data: 'id'")).
Proof.
  intros Hp Ht. split; [|split].
  - intros E. rewrite (get_pokemon_of_response net s _ Hp).
    unfold pokemon_of_response.
    cbn [status_code Z.eqb Pos.eqb negb response_json content bind getitem].
    rewrite E. reflexivity.
  - intros E. unfold get_pokemon_by_type, client_get. rewrite Ht. cbn [bind].
    unfold summary_of_response.
    cbn [status_code Z.eqb Pos.eqb negb response_json content bind getitem].
    rewrite E. reflexivity.
  - intros members Em Ei. unfold get_pokemon_by_type, client_get.
    rewrite Ht. cbn [bind]. unfold summary_of_response.
    cbn [status_code Z.eqb Pos.eqb negb response_json content bind getitem].
    rewrite Em. cbn [bind slice10]. rewrite Ei. reflexivity.
Qed.

Lemma first_missing_key_named_witness :
  get_pokemon (serving 200 (JObj [("pokemon", JList [JNull])])) "1"
  = Raise (ResourceError "Error processing Pokémon data: 'id'")
  /\ get_pokemon_by_type true (serving 200 (JObj [("pokemon", JList [JNull])])) "fire"
     = Raise (ResourceError "Error processing type data: 'id'").
Proof.
  destruct (first_missing_key_named true (serving 200 (JObj [("pokemon", JList [JNull])]))
              "1" "fire" [("pokemon", JList [JNull])] [("pokemon", JList [JNull])]
              eq_refl eq_refl) as (Hp & _ & Ht).
  split; [apply Hp; reflexivity | apply (Ht [JNull]); reflexivity].
Defined.
